(** * The dialogue manager of the billing assistant

    A shallow embedding of [backend/dialogue_manager.py] (class
    [DialogueManager]): the in-memory session store with its idle timeout,
    the merge of an NLU extraction into a session, and the turn planner
    [determine_next_step].

    Conventions of the embedding.
    - Python values that reach the manager come from [json.loads]; they are
      modelled by [value].  A [str] is the string of its UTF-8 bytes.
    - A Python [dict] with string keys is a [gmap string value]; the manager
      never iterates over a dict's entries, so insertion order is not needed.
    - A session dict has a fixed set of keys and is a record.  Its ["items"]
      list only ever receives values on which [.get] succeeded, that is,
      dicts.
    - An extraction is a tree, as [json.loads] builds it: no dict object
      occurs in it twice, so the dicts the merge appends to the session
      and later completes in place can be taken as values.
    - [time.time()] is an explicit argument, a binary64 float as in
      Python; the age of a session is the float difference of two clock
      readings, rounded as the machine rounds it.
    - A call that can raise returns an [outcome]; the session is returned
      beside it, since the mutations made before the exception persist.
    - [update_session] can give a session key any value; it is modelled
      where the session stays a record of the types above, and says so
      where it does not. *)

From Stdlib Require Import ZArith String Ascii List Bool Floats.
From stdpp Require Import base option list strings gmap pretty.
Import ListNotations.
Open Scope string_scope.
Open Scope list_scope.

Set Warnings "-register-all,-inexact-float".

(** ** Python values *)

Inductive value :=
| VNone
| VBool (b : bool)
| VInt (n : Z)
| VFloat (x : float)
| VStr (s : string)
| VList (l : list value)
| VDict (d : gmap string value).

Abbreviation dict := (gmap string value).

(** [bool(v)]: what [if v] and [not v] test. *)
Definition truthy (v : value) : bool :=
  match v with
  | VNone => false
  | VBool b => b
  | VInt n => negb (n =? 0)%Z
  | VFloat x => negb (PrimFloat.eqb x 0%float)
  | VStr s => negb (String.eqb s "")
  | VList l => match l with [] => false | _ :: _ => true end
  | VDict d => negb (Nat.eqb (size d) 0)
  end.

(** [d.get(k)], with the default [None]. *)
Definition py_get (d : dict) (k : string) : value := default VNone (d !! k).

(** [v == "literal"] for a string literal: only an equal [str] is equal. *)
Definition eq_str (v : value) (lit : string) : bool :=
  match v with
  | VStr s => String.eqb s lit
  | _ => false
  end.

(** Exceptions the manager can raise. *)
Inductive exn :=
| KeyError (key : string)
| AttributeError (attr : string)
| TypeError.

Inductive outcome (A : Type) :=
| Returns (a : A)
| Raises (e : exn).
Arguments Returns {A} a.
Arguments Raises {A} e.

(** [d[k]] *)
Definition py_item (d : dict) (k : string) : outcome value :=
  match d !! k with
  | Some v => Returns v
  | None => Raises (KeyError k)
  end.

(** ** Text *)

(** [s.lower()] on the UTF-8 bytes: the ASCII capitals are lowered, the
    bytes of the other characters are kept.  For the keywords the manager
    looks for (lower-case ASCII words and caseless Devanagari words) the
    test [kw in s.lower()] has the same answer as with Python's Unicode
    lowering, which takes only two non-ASCII characters to ASCII letters:
    U+212A to k, a letter of no keyword, and U+0130 to i followed by
    U+0307, where no keyword goes on. *)
Definition lower_ascii (c : ascii) : ascii :=
  let n := nat_of_ascii c in
  if ((65 <=? n) && (n <=? 90))%nat then ascii_of_nat (n + 32) else c.

Fixpoint lower (s : string) : string :=
  match s with
  | EmptyString => EmptyString
  | String c s' => String (lower_ascii c) (lower s')
  end.

(** [needle in hay] *)
Fixpoint contains (needle hay : string) : bool :=
  String.prefix needle hay ||
  match hay with
  | EmptyString => false
  | String _ hay' => contains needle hay'
  end.

(** An f-string keeps its interpolated values: [Fmt v] stands for
    [format(v)], which [py_str] computes for the scalar values. *)
Inductive piece :=
| Lit (s : string)
| Fmt (v : value).

Definition fstring := list piece.

Definition py_str (v : value) : option string :=
  match v with
  | VNone => Some "None"
  | VBool true => Some "True"
  | VBool false => Some "False"
  | VInt n => Some (pretty n)
  | VStr s => Some s
  | VFloat _ | VList _ | VDict _ => None
  end.

Fixpoint render (f : fstring) : option string :=
  match f with
  | [] => Some ""
  | Lit s :: f' => String.append s <$> render f'
  | Fmt v :: f' =>
      match py_str v, render f' with
      | Some s, Some r => Some (String.append s r)
      | _, _ => None
      end
  end.

(** [sep.join(parts)] *)
Fixpoint join (sep : string) (parts : list fstring) : fstring :=
  match parts with
  | [] => []
  | [p] => p
  | p :: ps => p ++ Lit sep :: join sep ps
  end.

(** ** Sessions *)

Record session := {
  active : bool;
  intent : value;
  customerName : value;
  items : list dict;
  payment : dict;
  last_question : value;
  turn_count : Z;
  last_active : float
}.

Definition set_active (b : bool) (s : session) : session :=
  {| active := b; intent := intent s; customerName := customerName s;
     items := items s; payment := payment s;
     last_question := last_question s; turn_count := turn_count s;
     last_active := last_active s |}.

Definition set_intent (v : value) (s : session) : session :=
  {| active := active s; intent := v; customerName := customerName s;
     items := items s; payment := payment s;
     last_question := last_question s; turn_count := turn_count s;
     last_active := last_active s |}.

Definition set_customerName (v : value) (s : session) : session :=
  {| active := active s; intent := intent s; customerName := v;
     items := items s; payment := payment s;
     last_question := last_question s; turn_count := turn_count s;
     last_active := last_active s |}.

Definition set_items (l : list dict) (s : session) : session :=
  {| active := active s; intent := intent s; customerName := customerName s;
     items := l; payment := payment s;
     last_question := last_question s; turn_count := turn_count s;
     last_active := last_active s |}.

Definition set_last_question (v : value) (s : session) : session :=
  {| active := active s; intent := intent s; customerName := customerName s;
     items := items s; payment := payment s;
     last_question := v; turn_count := turn_count s;
     last_active := last_active s |}.

Definition set_last_active (t : float) (s : session) : session :=
  {| active := active s; intent := intent s; customerName := customerName s;
     items := items s; payment := payment s;
     last_question := last_question s; turn_count := turn_count s;
     last_active := t |}.

(** ** The session store *)

(** [self.sessions], keyed by [user_uid]. *)
Abbreviation store := (gmap string session).

Definition SESSION_TIMEOUT : float := 60.

(** The dict literal of [get_session]. *)
Definition new_session (now : float) : session :=
  {| active := false;
     intent := VNone;
     customerName := VNone;
     items := [];
     payment := <["amount" := VNone]> (<["mode" := VNone]> ∅);
     last_question := VNone;
     turn_count := 0;
     last_active := now |}.

Definition clear_session (sessions : store) (user_uid : string) : store :=
  delete user_uid sessions.

(** [now - last_active > SESSION_TIMEOUT], the subtraction and the
    comparison being those of binary64. *)
Definition timed_out (now : float) (s : session) : bool :=
  (SESSION_TIMEOUT <? now - last_active s)%float.

Definition get_session (sessions : store) (user_uid : string) (now : float)
  : session * store :=
  match sessions !! user_uid with
  | Some s =>
      if timed_out now s
      then (new_session now,
            <[user_uid := new_session now]> (clear_session sessions user_uid))
      else (s, sessions)
  | None => (new_session now, <[user_uid := new_session now]> sessions)
  end.

(** ** The merge engine *)

(** The two guarded assignments on the last item. *)
Definition complete_last (it last : dict) : dict :=
  let last :=
    if truthy (py_get it "qty") && negb (truthy (py_get last "qty"))
    then <["qty" := py_get it "qty"]> last else last in
  if truthy (py_get it "price") && negb (truthy (py_get last "price"))
  then <["price" := py_get it "price"]> last else last.

(** One iteration of [for it in new_items].  [it.get] exists on dicts
    only. *)
Definition merge_item (its : list dict) (it : value)
  : list dict * outcome unit :=
  match it with
  | VDict d =>
      if negb (truthy (py_get d "itemName"))
         && match its with [] => false | _ :: _ => true end
      then (alter (complete_last d) (pred (length its)) its, Returns tt)
      else (its ++ [d], Returns tt)
  | _ => (its, Raises (AttributeError "get"))
  end.

Fixpoint merge_items (its : list dict) (new_items : list value)
  : list dict * outcome unit :=
  match new_items with
  | [] => (its, Returns tt)
  | it :: rest =>
      match merge_item its it with
      | (its', Returns _) => merge_items its' rest
      | (its', Raises e) => (its', Raises e)
      end
  end.

(** [for it in new_items] for a truthy [new_items]: a list is walked; a
    non-empty str or dict yields strs, on which [it.get] fails at once; the
    other truthy values are not iterable. *)
Definition merge_new_items (its : list dict) (new_items : value)
  : list dict * outcome unit :=
  match new_items with
  | VList l => merge_items its l
  | VStr _ | VDict _ => (its, Raises (AttributeError "get"))
  | _ => (its, Raises TypeError)
  end.

(** [nlu_data.get("items", [])] *)
Definition nlu_items (nlu_data : dict) : value :=
  default (VList []) (nlu_data !! "items").

(** 1. Basic Fields.  [nlu_data["intent"]] is read only after
    [nlu_data.get("intent")] was truthy, so the key is there. *)
Definition merge_basic_fields (s : session) (nlu_data : dict) : session :=
  let s := if truthy (py_get nlu_data "intent")
           then set_intent (py_get nlu_data "intent") s else s in
  if truthy (py_get nlu_data "customerName")
  then set_customerName (py_get nlu_data "customerName") s else s.

Definition _merge_nlu_to_session (s : session) (nlu_data : dict)
  : session * outcome unit :=
  let s := merge_basic_fields s nlu_data in
  (* 2. Items Logic *)
  let new_items := nlu_items nlu_data in
  if truthy new_items
  then let '(its, r) := merge_new_items (items s) new_items in
       (set_items its s, r)
  else (s, Returns tt).

(** ** The turn planner *)

(** The result dict; ["payload"] is present in the confirmation only. *)
Record response := {
  text : fstring;
  action : string;
  payload : option session
}.

Definition listen (t : fstring) : response :=
  {| text := t; action := "listen"; payload := None |}.

(** 0. Global Interrupts *)
Definition is_interrupt (txt : string) : bool :=
  contains "cancel" (lower txt) || contains "stop" (lower txt)
  || contains "बंद" txt.

Definition cancel_response : response :=
  {| text := [Lit "Okay boss, cancelled. (ठीक आहे, रद्द केले.)"];
     action := "cancel"; payload := None |}.

Definition intent_prompt : fstring :=
  [Lit "तुम्हाला काय करायचं आहे? बिल, पेमेंट की रिटर्न? (Bill, Payment or Return?)"].

Definition customer_prompt : fstring :=
  [Lit "ग्राहकाचं नाव सांगा? (Customer Name?)"].

Definition which_item_prompt : fstring :=
  [Lit "कोणता आयटम ॲड करायचा? (Which item?)"].

Definition item_name_again_prompt : fstring :=
  [Lit "Please say the item name again."].

Definition quantity_prompt (name : value) : fstring :=
  [Lit "'"; Fmt name; Lit "' चे किती नग? (Quantity?)"].

Definition price_prompt (name : value) : fstring :=
  [Lit "'"; Fmt name; Lit "' ची किंमत काय? (Price?)"].

Definition added_prompt (qty name : value) : fstring :=
  [Lit "Added "; Fmt qty; Lit " "; Fmt name;
   Lit ". आणखी काही? (Anything else?)"].

(** The finish keywords of the item loop. *)
Definition is_finish (txt : string) : bool :=
  contains "confirm" (lower txt) || contains "save" (lower txt)
  || contains "बस" (lower txt) || contains "done" (lower txt).

(** [f"{i['qty']} {i['itemName']}" for i in session['items']] *)
Definition item_summary (i : dict) : outcome fstring :=
  match py_item i "qty" with
  | Raises e => Raises e
  | Returns q =>
      match py_item i "itemName" with
      | Raises e => Raises e
      | Returns n => Returns [Fmt q; Lit " "; Fmt n]
      end
  end.

Fixpoint items_summary (its : list dict) : outcome (list fstring) :=
  match its with
  | [] => Returns []
  | i :: rest =>
      match item_summary i with
      | Raises e => Raises e
      | Returns p =>
          match items_summary rest with
          | Raises e => Raises e
          | Returns ps => Returns (p :: ps)
          end
      end
  end.

(** 5. CONFIRMATION PHASE *)
Definition confirmation (s : session) : session * outcome response :=
  let summary := [Lit "Validating: "; Fmt (intent s); Lit " for ";
                  Fmt (customerName s); Lit ". "] in
  match items_summary (items s) with
  | Raises e => (s, Raises e)
  | Returns parts =>
      (s, Returns
            {| text := [Lit "Complete. "] ++ summary ++ [Lit " Items: "]
                       ++ join ", " parts ++ [Lit ". Shall I save it?"];
               action := "confirm";
               payload := Some s |})
  end.

(** 4. ITEM PHASE, entered when the intent is ["create_bill"].  The
    prompts subscript [last_item] with keys whose [.get] was just found
    truthy, so the subscripts cannot fail and give the same values. *)
Definition item_phase (s : session) (txt : string)
  : session * outcome response :=
  match last (items s) with
  | None => (s, Returns (listen which_item_prompt))
  | Some last_item =>
      if negb (truthy (py_get last_item "itemName"))
      then (set_items (removelast (items s)) s,
            Returns (listen item_name_again_prompt))
      else if negb (truthy (py_get last_item "qty"))
      then (s, Returns (listen (quantity_prompt (py_get last_item "itemName"))))
      else if negb (truthy (py_get last_item "price"))
              && negb (truthy (py_get last_item "salePrice"))
      then (s, Returns (listen (price_prompt (py_get last_item "itemName"))))
      else if is_finish txt
      then confirmation s
      else (s, Returns (listen (added_prompt (py_get last_item "qty")
                                             (py_get last_item "itemName"))))
  end.

(** 3. CUSTOMER PHASE, and what follows it. *)
Definition customer_phase (s : session) (txt : string)
  : session * outcome response :=
  if negb (truthy (customerName s))
  then (set_last_question (VStr "customerName") s,
        Returns (listen customer_prompt))
  else if eq_str (intent s) "create_bill"
  then item_phase s txt
  else confirmation s.

(** 2. INTENT DETECTION PHASE, on the merged session, and what follows. *)
Definition plan (s : session) (txt : string) (nlu_data : dict)
  : session * outcome response :=
  if negb (truthy (intent s))
  then
    if truthy (py_get nlu_data "intent")
    then customer_phase
           (set_active true (set_intent (py_get nlu_data "intent") s)) txt
    else (set_last_question (VStr "intent") s,
          Returns (listen intent_prompt))
  else customer_phase s txt.

(** [now] is the clock read by [get_session], [now'] the one stored in
    [last_active] right after.  The session is an object of the store:
    what the turn does to it is seen in the store afterwards, also when
    the turn raises. *)
Definition determine_next_step (sessions : store) (user_uid : string)
    (txt : string) (nlu_data : dict) (now now' : float)
  : store * outcome response :=
  let '(s, sessions) := get_session sessions user_uid now in
  let s := set_last_active now' s in
  if is_interrupt txt
  then (clear_session sessions user_uid, Returns cancel_response)
  else
    match _merge_nlu_to_session s nlu_data with
    | (s, Raises e) => (<[user_uid := s]> sessions, Raises e)
    | (s, Returns _) =>
        let '(s, r) := plan s txt nlu_data in
        (<[user_uid := s]> sessions, r)
    end.

(** ** Partial updates of a session *)

(** [val is not None] fails. *)
Definition is_none (v : value) : bool :=
  match v with
  | VNone => true
  | _ => false
  end.

Definition set_payment (d : dict) (s : session) : session :=
  {| active := active s; intent := intent s; customerName := customerName s;
     items := items s; payment := d;
     last_question := last_question s; turn_count := turn_count s;
     last_active := last_active s |}.

Definition set_turn_count (n : Z) (s : session) : session :=
  {| active := active s; intent := intent s; customerName := customerName s;
     items := items s; payment := payment s;
     last_question := last_question s; turn_count := n;
     last_active := last_active s |}.

(** A list value all of whose elements are dicts. *)
Fixpoint as_dicts (l : list value) : option (list dict) :=
  match l with
  | [] => Some []
  | VDict d :: l' => cons d <$> as_dicts l'
  | _ :: _ => None
  end.

(** [current[key] = val] for a value that is not [None].  The result is
    [None] when the session stops being a record of the model: the key is
    not one of the session's, or the value has not the type the key has
    here.  A value assigned to ["last_active"] does not last, the clock
    is stored over it before [update_session] ends. *)
Definition assign_field (key : string) (val : value) (s : session)
  : option session :=
  if String.eqb key "active" then
    match val with VBool b => Some (set_active b s) | _ => None end
  else if String.eqb key "intent" then Some (set_intent val s)
  else if String.eqb key "customerName" then Some (set_customerName val s)
  else if String.eqb key "items" then
    match val with
    | VList l => (λ its, set_items its s) <$> as_dicts l
    | _ => None
    end
  else if String.eqb key "payment" then
    match val with VDict d => Some (set_payment d s) | _ => None end
  else if String.eqb key "last_question" then Some (set_last_question val s)
  else if String.eqb key "turn_count" then
    match val with VInt n => Some (set_turn_count n s) | _ => None end
  else if String.eqb key "last_active" then Some s
  else None.

(** The body of [for key, val in data.items()], on the session so far. *)
Definition update_field (key : string) (val : value) (acc : option session)
  : option session :=
  if is_none val then acc else acc ≫= assign_field key val.

(** The keys of a dict are distinct, and assignments to distinct keys do
    not depend on their order: the loop is a fold over the entries. *)
Definition update_session (sessions : store) (user_uid : string)
    (data : dict) (now : float) : option store :=
  match sessions !! user_uid with
  | Some current =>
      current' ← map_fold update_field (Some current) data;
      Some (<[user_uid := set_last_active now current']> sessions)
  | None => Some sessions
  end.

(** ** Concrete sessions, extractions and dialogues *)

(** A dict literal. *)
Definition mk_dict (entries : list (string * value)) : dict :=
  list_to_map entries.

Definition extraction_intent (name : string) : dict :=
  mk_dict [("intent", VStr name)].

Definition extraction_customer (name : string) : dict :=
  mk_dict [("customerName", VStr name)].

Definition extraction_items (new_items : list value) : dict :=
  mk_dict [("items", VList new_items)].

Definition extraction_payment (amount mode : value) : dict :=
  mk_dict [("payment", VDict (mk_dict [("amount", amount); ("mode", mode)]))].

Definition rice_open : dict :=
  mk_dict [("itemName", VStr "Rice"); ("qty", VNone); ("price", VNone)].

Definition rice_zero_qty : dict :=
  mk_dict [("itemName", VStr "Rice"); ("qty", VInt 0); ("price", VNone)].

Definition rice_zero_price : dict :=
  mk_dict [("itemName", VStr "Rice"); ("qty", VInt 5); ("price", VInt 0)].

Definition rice_full : dict :=
  mk_dict [("itemName", VStr "Rice"); ("qty", VInt 5); ("price", VInt 40)].

Definition rice_no_qty : dict :=
  mk_dict [("itemName", VStr "Rice"); ("price", VInt 40)].

Definition dal_full : dict :=
  mk_dict [("itemName", VStr "Dal"); ("qty", VInt 2); ("price", VInt 90)].

Definition qty5_fragment : dict :=
  mk_dict [("itemName", VNone); ("qty", VInt 5)].

Definition zero_fragment : dict :=
  mk_dict [("itemName", VNone); ("qty", VInt 0); ("price", VInt 0)].

(** A session in which the intent was taken as [name]. *)
Definition session_of_intent (name : string) : session :=
  set_intent (VStr name) (new_session 0).

(** A bill for Ramesh under way, with the given items. *)
Definition bill_session (its : list dict) : session :=
  set_items its
    (set_customerName (VStr "Ramesh") (session_of_intent "create_bill")).

(** A sale to Ramesh under way, the intent named as the extractor names
    it, with the given items. *)
Definition sale_session (its : list dict) : session :=
  set_items its
    (set_customerName (VStr "Ramesh") (session_of_intent "SALE")).


(** A store with the single user ["u1"]. *)
Definition one_user_store (s : session) : store := {["u1" := s]}.

(** Successive turns of one user; turn [(t, txt, nlu_data)] happens at
    time [t]. *)
Fixpoint run_turns (sessions : store) (user_uid : string)
    (turns : list (float * string * dict)) : list (outcome response) :=
  match turns with
  | [] => []
  | (t, txt, nlu_data) :: rest =>
      let '(sessions', r) :=
        determine_next_step sessions user_uid txt nlu_data t t in
      r :: run_turns sessions' user_uid rest
  end.

(** What the user is told in a turn: the text, when every interpolated
    value is a scalar, and the action. *)
Definition shown (r : outcome response) : option (string * string) :=
  match r with
  | Returns r => (λ t, (t, action r)) <$> render (text r)
  | Raises _ => None
  end.

(** The four-turn dialogue of a sale to Ramesh, the extractor naming the
    intent [intent_name]. *)
Definition sale_dialogue (intent_name : string)
  : list (float * string * dict) :=
  [(0%float, "sale", extraction_intent intent_name);
   (1%float, "Ramesh", extraction_customer "Ramesh");
   (2%float, "rice 5 kg 40 rupees", extraction_items [VDict rice_full]);
   (3%float, "done", ∅)].

(** One extraction with everything for a bill, the first item lacking its
    ["qty"] key. *)
Definition missing_qty_extraction : dict :=
  mk_dict [("intent", VStr "create_bill");
           ("customerName", VStr "Ramesh");
           ("items", VList [VDict rice_no_qty; VDict dal_full])].

(** ** Situations the properties speak of *)

(** The user has a session that [get_session] returns at time [now]. *)
Definition live (sessions : store) (user_uid : string) (now : float)
    (s : session) : Prop :=
  sessions !! user_uid = Some s
  ∧ (now - last_active s <=? SESSION_TIMEOUT)%float = true.

(** The session passes the intent and customer phases and enters the item
    phase. *)
Definition in_item_phase (s : session) : Prop :=
  eq_str (intent s) "create_bill" = true ∧ truthy (customerName s) = true.

(** The extraction has no intent, no customer name and no items. *)
Definition carries_nothing (nlu_data : dict) : Prop :=
  truthy (py_get nlu_data "intent") = false
  ∧ truthy (py_get nlu_data "customerName") = false
  ∧ truthy (nlu_items nlu_data) = false.

(** The extraction has no intent, no customer name, and the one item
    [it]. *)
Definition carries_item (nlu_data : dict) (it : dict) : Prop :=
  truthy (py_get nlu_data "intent") = false
  ∧ truthy (py_get nlu_data "customerName") = false
  ∧ nlu_items nlu_data = VList [VDict it].


(** The item can be printed in the confirmation summary: it has the two
    keys the summary subscripts. *)
Definition summarizable (i : dict) : Prop :=
  is_Some (i !! "qty") ∧ is_Some (i !! "itemName").

(** The extraction's items are absent, falsy, or a list of dicts that
    can all be printed in the summary. *)
Definition summarizable_items (nlu_data : dict) : Prop :=
  truthy (nlu_items nlu_data) = false
  ∨ ∃ ds : list dict,
      nlu_items nlu_data = VList (VDict <$> ds) ∧ Forall summarizable ds.

(** Every item of every stored session can be printed. *)
Definition summarizable_store (sessions : store) : Prop :=
  ∀ (u : string) (s : session),
    sessions !! u = Some s → Forall summarizable (items s).

(** The turn returned a response. *)
Definition returned (r : outcome response) : Prop :=
  ∃ resp : response, r = Returns resp.

(** The item has a quantity and a price. *)
Definition priced (i : dict) : Prop :=
  truthy (py_get i "qty") = true ∧ truthy (py_get i "price") = true.

(** What a key of the session holds after [update_session], [entry]
    being what the update has for the key and [old] what the session
    had. *)
Definition updated (entry : option value) (old : value) : value :=
  match entry with
  | Some v => if is_none v then old else v
  | None => old
  end.

(** The update gives a value other than [None] only to keys that hold
    any value: the intent, the customer name, the last question, and
    [last_active], which the clock overwrites. *)
Definition scalar_update (data : dict) : Prop :=
  ∀ (k : string) (v : value),
    data !! k = Some v →
    v = VNone
    ∨ k ∈ ["intent"; "customerName"; "last_question"; "last_active"].

(** The fields [get_session] initialises and no turn writes. *)
Definition idle_fields (s : session) : Prop :=
  active s = false ∧ turn_count s = 0%Z ∧ payment s = payment (new_session 0).

(** * Properties *)

(** ** Records and basic fields *)

(** The two tests of the basic fields, by cases. *)
Local Ltac basic_fields :=
  unfold merge_basic_fields;
  by destruct (truthy (py_get _ "intent")),
              (truthy (py_get _ "customerName")).

Lemma intent_merge_basic_fields (s : session) (nlu_data : dict) :
  intent (merge_basic_fields s nlu_data)
  = if truthy (py_get nlu_data "intent")
    then py_get nlu_data "intent" else intent s.
Proof. basic_fields. Qed.

Lemma customerName_merge_basic_fields (s : session) (nlu_data : dict) :
  customerName (merge_basic_fields s nlu_data)
  = if truthy (py_get nlu_data "customerName")
    then py_get nlu_data "customerName" else customerName s.
Proof. basic_fields. Qed.

Lemma items_merge_basic_fields (s : session) (nlu_data : dict) :
  items (merge_basic_fields s nlu_data) = items s.
Proof. basic_fields. Qed.

Lemma merge_basic_fields_none (s : session) (nlu_data : dict) :
  truthy (py_get nlu_data "intent") = false →
  truthy (py_get nlu_data "customerName") = false →
  merge_basic_fields s nlu_data = s.
Proof. unfold merge_basic_fields. by intros -> ->. Qed.

(** The merge touches [intent], [customerName] and [items] only. *)
Lemma merge_frame (s : session) (nlu_data : dict) :
  let s' := fst (_merge_nlu_to_session s nlu_data) in
  active s' = active s ∧ payment s' = payment s
  ∧ last_question s' = last_question s ∧ turn_count s' = turn_count s
  ∧ last_active s' = last_active s
  ∧ intent s' = intent (merge_basic_fields s nlu_data)
  ∧ customerName s' = customerName (merge_basic_fields s nlu_data).
Proof.
  unfold _merge_nlu_to_session.
  assert (Hb : ∀ t : session,
    active (merge_basic_fields t nlu_data) = active t
    ∧ payment (merge_basic_fields t nlu_data) = payment t
    ∧ last_question (merge_basic_fields t nlu_data) = last_question t
    ∧ turn_count (merge_basic_fields t nlu_data) = turn_count t
    ∧ last_active (merge_basic_fields t nlu_data) = last_active t).
  { intros t. basic_fields. }
  destruct (Hb s) as (? & ? & ? & ? & ?).
  destruct (truthy (nlu_items nlu_data)); [|done].
  by destruct (merge_new_items _ _).
Qed.

Lemma merge_nothing (s : session) (nlu_data : dict) :
  truthy (py_get nlu_data "intent") = false →
  truthy (py_get nlu_data "customerName") = false →
  truthy (nlu_items nlu_data) = false →
  _merge_nlu_to_session s nlu_data = (s, Returns tt).
Proof.
  intros Hi Hc Hl. unfold _merge_nlu_to_session.
  by rewrite merge_basic_fields_none, Hl.
Qed.

(** ** The store *)

(** Comparison of binary64 floats, through their specification. *)
Lemma SFcompare_antisym (a b : spec_float) :
  SFcompare b a = option_map CompOpp (SFcompare a b).
Proof.
  destruct a as [sa|sa| |sa ma ea], b as [sb|sb| |sb mb eb];
    try destruct sa; try destruct sb; try reflexivity; simpl;
    rewrite (Z.compare_antisym ea eb);
    destruct (ea ?= eb)%Z; simpl; try reflexivity;
    rewrite !Pos.compare_cont_spec; simpl;
    rewrite (Pos.compare_antisym ma mb);
    by destruct (ma ?= mb)%positive.
Qed.

Lemma leb_not_ltb (x y : float) :
  (x <=? y)%float = true → (y <? x)%float = false.
Proof.
  rewrite leb_spec, ltb_spec. unfold SFleb, SFltb.
  rewrite (SFcompare_antisym (Prim2SF x) (Prim2SF y)).
  by destruct (SFcompare (Prim2SF x) (Prim2SF y)) as [[]|].
Qed.

(** A float minus itself is zero, or not a number. *)
Lemma SFsub_diag (a : spec_float) :
  SFsub prec emax a a = S754_nan ∨ SFsub prec emax a a = S754_zero false.
Proof.
  destruct a as [[]|[]| |s m e]; simpl; auto.
  rewrite Z.sub_diag. by right.
Qed.

Lemma sub_diag_not_above (x : float) :
  (SESSION_TIMEOUT <? x - x)%float = false.
Proof.
  rewrite ltb_spec, sub_spec. unfold SF64sub.
  destruct (SFsub_diag (Prim2SF x)) as [-> | ->]; by vm_compute.
Qed.

Lemma timed_out_false (now : float) (s : session) :
  (now - last_active s <=? SESSION_TIMEOUT)%float = true →
  timed_out now s = false.
Proof. apply leb_not_ltb. Qed.

Lemma get_session_live (sessions : store) (user_uid : string) (now : float)
    (s : session) :
  sessions !! user_uid = Some s →
  timed_out now s = false →
  get_session sessions user_uid now = (s, sessions).
Proof. intros Hs Ht. unfold get_session. by rewrite Hs, Ht. Qed.

Lemma get_session_fresh (sessions : store) (user_uid : string) (now : float) :
  (∀ s, sessions !! user_uid = Some s → timed_out now s = true) →
  get_session sessions user_uid now
  = (new_session now, <[user_uid := new_session now]> sessions).
Proof.
  intros Hs. unfold get_session, clear_session.
  destruct (sessions !! user_uid) as [s|] eqn:E; [|done].
  by rewrite (Hs s eq_refl), insert_delete_eq.
Qed.

(** Whatever [get_session] found, the user's entry is the returned
    session. *)
Lemma get_session_stored (sessions : store) (user_uid : string) (now : float) :
  snd (get_session sessions user_uid now) !! user_uid
  = Some (fst (get_session sessions user_uid now)).
Proof.
  unfold get_session.
  destruct (sessions !! user_uid) as [s|] eqn:E; simpl.
  - destruct (timed_out now s); simpl; [by rewrite lookup_insert_eq | done].
  - by rewrite lookup_insert_eq.
Qed.

Lemma delete_get_session (sessions : store) (user_uid : string) (now : float) :
  delete user_uid (snd (get_session sessions user_uid now))
  = delete user_uid sessions.
Proof.
  unfold get_session, clear_session.
  destruct (sessions !! user_uid) as [s|] eqn:E; simpl.
  - destruct (timed_out now s); simpl; [|done].
    by rewrite delete_insert_eq, delete_delete_eq.
  - by rewrite delete_insert_eq.
Qed.

(** ** A turn on a live session *)

Lemma determine_next_step_live (sessions : store) (user_uid txt : string)
    (nlu_data : dict) (now now' : float) (s s' : session) :
  sessions !! user_uid = Some s →
  timed_out now s = false →
  is_interrupt txt = false →
  _merge_nlu_to_session (set_last_active now' s) nlu_data = (s', Returns tt) →
  determine_next_step sessions user_uid txt nlu_data now now'
  = (<[user_uid := fst (plan s' txt nlu_data)]> sessions,
     snd (plan s' txt nlu_data)).
Proof.
  intros Hs Ht Hi Hm. unfold determine_next_step.
  rewrite (get_session_live _ _ _ _ Hs Ht), Hi, Hm.
  by destruct (plan s' txt nlu_data).
Qed.

(** ** Item fragments *)

Lemma py_get_insert_ne (d : dict) (k k' : string) (v : value) :
  k ≠ k' → py_get (<[k := v]> d) k' = py_get d k'.
Proof. intros Hk. unfold py_get. by rewrite lookup_insert_ne. Qed.

Lemma complete_last_qty (it last : dict) :
  complete_last it last !! "qty"
  = if truthy (py_get it "qty") && negb (truthy (py_get last "qty"))
    then Some (py_get it "qty") else last !! "qty".
Proof.
  unfold complete_last.
  destruct (truthy (py_get it "qty") && negb (truthy (py_get last "qty")));
    destruct (truthy (py_get it "price") && negb (truthy (py_get _ "price")));
    by simplify_map_eq.
Qed.

Lemma complete_last_price (it last : dict) :
  complete_last it last !! "price"
  = if truthy (py_get it "price") && negb (truthy (py_get last "price"))
    then Some (py_get it "price") else last !! "price".
Proof.
  unfold complete_last.
  destruct (truthy (py_get it "qty") && negb (truthy (py_get last "qty")));
    [rewrite py_get_insert_ne by done|];
    destruct (truthy (py_get it "price") && negb (truthy (py_get last "price")));
    by simplify_map_eq.
Qed.

Lemma complete_last_other (it last : dict) (k : string) :
  k ≠ "qty" → k ≠ "price" → complete_last it last !! k = last !! k.
Proof.
  intros Hq Hp. unfold complete_last.
  destruct (truthy (py_get it "qty") && negb (truthy (py_get last "qty")));
    destruct (truthy (py_get it "price") && negb (truthy (py_get _ "price")));
    by simplify_map_eq.
Qed.

Lemma merge_item_fragment (pre : list dict) (last it : dict) :
  truthy (py_get it "itemName") = false →
  merge_item (pre ++ [last]) (VDict it)
  = (pre ++ [complete_last it last], Returns tt).
Proof.
  intros Hn. unfold merge_item. rewrite Hn. simpl.
  replace (pred (length (pre ++ [last]))) with (length pre + 0)%nat
    by (rewrite length_app; simpl; lia).
  rewrite alter_app_r. simpl.
  by destruct pre.
Qed.

Lemma merge_item_new (its : list dict) (it : dict) :
  truthy (py_get it "itemName") = true ∨ its = [] →
  merge_item its (VDict it) = (its ++ [it], Returns tt).
Proof.
  intros [Hn | ->]; unfold merge_item.
  - by rewrite Hn.
  - by rewrite andb_false_r.
Qed.

(** The loop over a concatenation: the second part starts from the items
    the first part left, unless the first part raised. *)
Lemma merge_items_app (its : list dict) (l1 l2 : list value) :
  merge_items its (l1 ++ l2)
  = match merge_items its l1 with
    | (its1, Returns _) => merge_items its1 l2
    | (its1, Raises e) => (its1, Raises e)
    end.
Proof.
  revert its. induction l1 as [|it l1 IH]; intros its; simpl.
  - by destruct (merge_items its l2) as [? []].
  - destruct (merge_item its it) as [its' [[]|e]]; [apply IH | done].
Qed.

(** A nameless fragment anywhere in the extraction's items completes the
    item that is last when the loop reaches it. *)
Lemma merge_items_fragment (its pre : list dict) (last it : dict)
    (before after : list value) :
  merge_items its before = (pre ++ [last], Returns tt) →
  truthy (py_get it "itemName") = false →
  merge_items its (before ++ VDict it :: after)
  = merge_items (pre ++ [complete_last it last]) after.
Proof.
  intros Hb Hn. rewrite merge_items_app, Hb.
  cbn [merge_items]. by rewrite merge_item_fragment.
Qed.

(** An extraction whose only item is [it], merged into a session without
    items. *)
Lemma merge_first_item (s : session) (it : dict) (nlu_data : dict) :
  items s = [] →
  nlu_items nlu_data = VList [VDict it] →
  _merge_nlu_to_session s nlu_data
  = (set_items [it] (merge_basic_fields s nlu_data), Returns tt).
Proof.
  intros Hs Hl. unfold _merge_nlu_to_session.
  rewrite Hl, items_merge_basic_fields, Hs.
  cbn [truthy merge_new_items merge_items].
  by rewrite merge_item_new by (by right).
Qed.

(** ** The item phase *)

Lemma eq_str_truthy (v : value) (lit : string) :
  lit ≠ "" → eq_str v lit = true → truthy v = true.
Proof.
  intros Hl. destruct v; simpl; try done.
  intros ->%String.eqb_eq. by destruct lit.
Qed.

Lemma plan_create_bill (s : session) (txt : string) (nlu_data : dict) :
  eq_str (intent s) "create_bill" = true →
  truthy (customerName s) = true →
  plan s txt nlu_data = item_phase s txt.
Proof.
  intros Hi Hc. unfold plan, customer_phase.
  assert (Ht : truthy (intent s) = true)
    by (apply (eq_str_truthy _ "create_bill"); [discriminate | exact Hi]).
  by rewrite Ht, Hc, Hi.
Qed.

Lemma item_phase_no_items (s : session) (txt : string) :
  items s = [] →
  item_phase s txt = (s, Returns (listen which_item_prompt)).
Proof. intros Hs. unfold item_phase. by rewrite Hs. Qed.

Lemma item_phase_nameless (s : session) (txt : string) (pre : list dict)
    (last_item : dict) :
  items s = pre ++ [last_item] →
  truthy (py_get last_item "itemName") = false →
  item_phase s txt
  = (set_items pre s, Returns (listen item_name_again_prompt)).
Proof.
  intros Hs Hn. unfold item_phase.
  by rewrite Hs, last_snoc, Hn, removelast_last.
Qed.



(** ** Turns in the item phase *)


Section ItemPhaseTurn.
Context (sessions : store) (user_uid txt : string) (now now' : float)
        (s : session).
Hypothesis Hlive : live sessions user_uid now s.
Hypothesis Hphase : in_item_phase s.
Hypothesis Htxt : is_interrupt txt = false.

(** A turn whose extraction changes nothing is decided by
    [item_phase]. *)
Lemma idle_turn_in_item_phase (nlu_data : dict) :
  carries_nothing nlu_data →
  determine_next_step sessions user_uid txt nlu_data now now'
  = (<[user_uid := fst (item_phase (set_last_active now' s) txt)]> sessions,
     snd (item_phase (set_last_active now' s) txt)).
Proof.
  destruct Hlive as [Hs Hl], Hphase as [Hi Hc].
  intros (Hni & Hnc & Hnl).
  rewrite (determine_next_step_live _ _ _ _ _ _ s (set_last_active now' s));
    [|done|by apply timed_out_false|done|by apply merge_nothing].
  by rewrite plan_create_bill.
Qed.

(** So is a turn whose extraction brings items only. *)
Lemma item_turn_in_item_phase (nlu_data : dict) (s' : session) :
  truthy (py_get nlu_data "intent") = false →
  truthy (py_get nlu_data "customerName") = false →
  _merge_nlu_to_session (set_last_active now' s) nlu_data
  = (s', Returns tt) →
  determine_next_step sessions user_uid txt nlu_data now now'
  = (<[user_uid := fst (item_phase s' txt)]> sessions,
     snd (item_phase s' txt)).
Proof.
  destruct Hlive as [Hs Hl], Hphase as [Hi Hc].
  intros Hni Hnc Hm.
  rewrite (determine_next_step_live _ _ _ _ _ _ s s');
    [|done|by apply timed_out_false|done|done].
  destruct (merge_frame (set_last_active now' s) nlu_data)
    as (_ & _ & _ & _ & _ & Hmi & Hmc).
  rewrite Hm in Hmi, Hmc. simpl in Hmi, Hmc.
  rewrite intent_merge_basic_fields, Hni in Hmi.
  rewrite customerName_merge_basic_fields, Hnc in Hmc.
  rewrite plan_create_bill; [done| |]; by rewrite ?Hmi, ?Hmc.
Qed.
End ItemPhaseTurn.

(** * The merge engine, as specified *)

(** C1, as stated, fails: a session whose intent is SALE, merged with an
    extraction whose intent is PAYMENT, ends with the intent PAYMENT. *)
Lemma intent_overwritten_by_merge :
  intent (session_of_intent "SALE") = VStr "SALE"
  ∧ intent (fst (_merge_nlu_to_session (session_of_intent "SALE")
                   (extraction_intent "PAYMENT"))) = VStr "PAYMENT".
Proof. split; reflexivity. Qed.

(** C1, amended: the merge sets the session's intent to the extraction's
    intent whenever that one is truthy, whatever the session held before;
    an extraction without a truthy intent leaves the intent unchanged. *)
Theorem merge_intent_last_wins (s : session) (nlu_data : dict) :
  intent (fst (_merge_nlu_to_session s nlu_data))
  = if truthy (py_get nlu_data "intent")
    then py_get nlu_data "intent" else intent s.
Proof.
  destruct (merge_frame s nlu_data) as (_ & _ & _ & _ & _ & -> & _).
  apply intent_merge_basic_fields.
Qed.

(** C4, as stated, fails: the session has no payment amount, the
    extraction brings the amount 500, and after the merge the session's
    amount is still [None]. *)
Lemma payment_not_merged :
  payment (fst (_merge_nlu_to_session (new_session 0)
                  (extraction_payment (VInt 500) (VStr "CASH"))))
    !! "amount" = Some VNone.
Proof. reflexivity. Qed.

(** C4, amended: the merge never changes the session's payment, whatever
    payment the extraction carries; so no incoming field, null or not,
    erases or replaces an amount or a mode. *)
Theorem merge_keeps_payment (s : session) (nlu_data : dict) :
  payment (fst (_merge_nlu_to_session s nlu_data)) = payment s.
Proof. by destruct (merge_frame s nlu_data) as (_ & -> & _). Qed.

(** C8: merging an extraction whose intent and customer name are null and
    whose items are empty (or absent) returns normally and leaves every
    field of the session as it was, whatever the extraction's payment is.
    In a turn with such an extraction the planner therefore starts from
    the stored session with nothing but [last_active] changed. *)
Theorem merge_null_extraction (s : session) (nlu_data : dict) :
  py_get nlu_data "intent" = VNone →
  py_get nlu_data "customerName" = VNone →
  nlu_items nlu_data = VList [] →
  _merge_nlu_to_session s nlu_data = (s, Returns tt)
  ∧ ∀ (sessions : store) (user_uid txt : string) (now now' : float),
      live sessions user_uid now s →
      is_interrupt txt = false →
      determine_next_step sessions user_uid txt nlu_data now now'
      = (<[user_uid := fst (plan (set_last_active now' s) txt nlu_data)]>
           sessions,
         snd (plan (set_last_active now' s) txt nlu_data)).
Proof.
  intros Hi Hc Hl.
  assert (Hm : ∀ t, _merge_nlu_to_session t nlu_data = (t, Returns tt))
    by (intros t; apply merge_nothing; by rewrite ?Hi, ?Hc, ?Hl).
  split; [apply Hm|].
  intros sessions user_uid txt now now' [Hs Hlive] Hint.
  apply (determine_next_step_live _ _ _ _ _ _ s);
    [done | by apply timed_out_false | done | apply Hm].
Qed.

Lemma merge_null_extraction_witness :
  py_get (extraction_items []) "intent" = VNone
  ∧ py_get (extraction_items []) "customerName" = VNone
  ∧ nlu_items (extraction_items []) = VList []
  ∧ _merge_nlu_to_session (bill_session [rice_full]) (extraction_items [])
    = (bill_session [rice_full], Returns tt).
Proof.
  do 3 (split; [reflexivity|]).
  apply (merge_null_extraction (bill_session [rice_full])
           (extraction_items [])); reflexivity.
Defined.

(** * The session store, as specified *)

(** C6: [get_session] returns the stored session, and leaves the store
    alone, when the session was active at most 60 seconds ago; when the
    user has no such session (it is older, or there is none) the store
    gets a new session for the user, which is returned: not active, no
    intent, no customer name, no items, payment amount and mode null.
    The age is [now - last_active] as the code computes it, a binary64
    difference, compared with 60.  [get_session] is total, and what it
    returns is the user's entry in the store afterwards. *)
Theorem get_session_timeout (sessions : store) (user_uid : string) (now : float) :
  (∀ s, sessions !! user_uid = Some s →
        (now - last_active s <=? 60)%float = true →
        get_session sessions user_uid now = (s, sessions))
  ∧ ((∀ s, sessions !! user_uid = Some s →
           (60 <? now - last_active s)%float = true) →
     get_session sessions user_uid now
     = (new_session now, <[user_uid := new_session now]> sessions))
  ∧ (active (new_session now) = false
     ∧ intent (new_session now) = VNone
     ∧ customerName (new_session now) = VNone
     ∧ items (new_session now) = []
     ∧ payment (new_session now) !! "amount" = Some VNone
     ∧ payment (new_session now) !! "mode" = Some VNone)
  ∧ snd (get_session sessions user_uid now) !! user_uid
    = Some (fst (get_session sessions user_uid now)).
Proof.
  split; [|split; [|split]].
  - intros s Hs Hle. apply get_session_live; [done|].
    by apply timed_out_false.
  - intros Hold. apply get_session_fresh.
    intros s Hs. apply Hold, Hs.
  - by repeat split.
  - apply get_session_stored.
Qed.

Lemma get_session_timeout_witness :
  get_session (one_user_store (bill_session [rice_full])) "u1" 60
  = (bill_session [rice_full], one_user_store (bill_session [rice_full]))
  ∧ get_session (one_user_store (bill_session [rice_full])) "u1" 61
    = (new_session 61,
       <["u1" := new_session 61]> (one_user_store (bill_session [rice_full]))).
Proof.
  split.
  - apply (get_session_timeout
             (one_user_store (bill_session [rice_full])) "u1" 60);
      [reflexivity | by vm_compute].
  - apply (get_session_timeout
             (one_user_store (bill_session [rice_full])) "u1" 61).
    intros s [= <-]. reflexivity.
Defined.

(** The age is the rounded difference: a session last active at 0.1 is
    kept at 60.1, where the difference of the two floats is 60. *)
Example get_session_keeps_at_rounded_60 :
  get_session
    (one_user_store (set_last_active 0.1 (bill_session [rice_full])))
    "u1" 60.1
  = (set_last_active 0.1 (bill_session [rice_full]),
     one_user_store (set_last_active 0.1 (bill_session [rice_full]))).
Proof. reflexivity. Qed.

(** * The turn planner, as specified *)

(** C7: whatever the store holds for the user and whatever the extraction
    is, a text in which "cancel" or "stop" occurs in any letter case, or
    in which the Marathi word occurs, makes [determine_next_step] return
    the cancel response and remove the user's session; nothing of the
    extraction is merged and nothing is raised.  The next [get_session]
    of that user creates a new session. *)
Theorem cancel_precedence (sessions : store) (user_uid txt : string)
    (nlu_data : dict) (now now' : float) :
  contains "cancel" (lower txt) = true
  ∨ contains "stop" (lower txt) = true
  ∨ contains "बंद" txt = true →
  determine_next_step sessions user_uid txt nlu_data now now'
  = (delete user_uid sessions,
     Returns {| text := [Lit "Okay boss, cancelled. (ठीक आहे, रद्द केले.)"];
                action := "cancel";
                payload := None |})
  ∧ ∀ later : float,
      get_session (delete user_uid sessions) user_uid later
      = (new_session later, <[user_uid := new_session later]> sessions).
Proof.
  intros Hkw. split.
  - assert (Hi : is_interrupt txt = true).
    { unfold is_interrupt.
      destruct Hkw as [-> | [-> | ->]]; by rewrite ?orb_true_r. }
    unfold determine_next_step.
    pose proof (delete_get_session sessions user_uid now) as Hd.
    destruct (get_session sessions user_uid now) as [s sessions'].
    rewrite Hi. unfold clear_session. simpl in Hd. by rewrite Hd.
  - intros later. unfold get_session.
    by rewrite lookup_delete_eq, insert_delete_eq.
Qed.

Lemma cancel_precedence_witness :
  contains "cancel" (lower "Please CANCEL it") = true
  ∧ determine_next_step (one_user_store (bill_session [rice_full])) "u1"
      "Please CANCEL it" (extraction_items [VDict dal_full]) 3 3
    = (delete "u1" (one_user_store (bill_session [rice_full])),
       Returns cancel_response).
Proof.
  split; [reflexivity|].
  apply (cancel_precedence (one_user_store (bill_session [rice_full])) "u1"
           "Please CANCEL it" (extraction_items [VDict dal_full]) 3 3).
  left. reflexivity.
Defined.

(** * Item fragments, as specified *)

(** C5, as stated, fails: the last item's quantity is 0, which is set
    and not null, and a fragment with the quantity 5 overwrites it. *)
Lemma zero_quantity_overwritten :
  rice_zero_qty !! "qty" = Some (VInt 0)
  ∧ items (fst (_merge_nlu_to_session (bill_session [rice_zero_qty])
                  (extraction_items [VDict qty5_fragment])))
    = [<["qty" := VInt 5]> rice_zero_qty].
Proof. split; reflexivity. Qed.

(** C5, amended: when the loop of the merge reaches a nameless fragment
    and the session then has at least one item, nothing is appended for
    the fragment and only the item that is last at that moment changes:
    its quantity becomes the fragment's exactly when the fragment's
    quantity is truthy and its own is falsy (null, absent, zero or empty),
    and likewise, independently, its price; every other key of that item,
    and with it a quantity or price that is truthy, keeps its value.  The
    loop goes on with the rest of the extraction's items. *)
Theorem fragment_completes_last (s : session) (nlu_data : dict)
    (before after : list value) (it : dict) (pre : list dict) (last : dict) :
  nlu_items nlu_data = VList (before ++ VDict it :: after) →
  merge_items (items s) before = (pre ++ [last], Returns tt) →
  truthy (py_get it "itemName") = false →
  ∃ last' : dict,
    _merge_nlu_to_session s nlu_data
    = (set_items (fst (merge_items (pre ++ [last']) after))
         (merge_basic_fields s nlu_data),
       snd (merge_items (pre ++ [last']) after))
    ∧ last' !! "qty"
      = (if truthy (py_get it "qty") && negb (truthy (py_get last "qty"))
         then Some (py_get it "qty") else last !! "qty")
    ∧ last' !! "price"
      = (if truthy (py_get it "price") && negb (truthy (py_get last "price"))
         then Some (py_get it "price") else last !! "price")
    ∧ ∀ k : string, k ≠ "qty" → k ≠ "price" → last' !! k = last !! k.
Proof.
  intros Hl Hb Hn. exists (complete_last it last).
  split; [|split; [apply complete_last_qty|split;
                   [apply complete_last_price|]]].
  - unfold _merge_nlu_to_session. rewrite Hl, items_merge_basic_fields.
    replace (truthy (VList (before ++ VDict it :: after))) with true
      by (by destruct before).
    cbn [merge_new_items].
    rewrite (merge_items_fragment _ pre last it) by done.
    by destruct (merge_items _ after).
  - intros k. apply complete_last_other.
Qed.

(** The example of C5: Rice without quantity and price, completed by a
    fragment with the quantity 5. *)
Lemma fragment_completes_last_rice :
  nlu_items (extraction_items [VDict qty5_fragment])
  = VList ([] ++ VDict qty5_fragment :: [])
  ∧ merge_items (items (bill_session [rice_open])) []
    = ([] ++ [rice_open], Returns tt)
  ∧ truthy (py_get qty5_fragment "itemName") = false
  ∧ ∃ last' : dict,
      _merge_nlu_to_session (bill_session [rice_open])
        (extraction_items [VDict qty5_fragment])
      = (set_items [last'] (bill_session [rice_open]), Returns tt)
      ∧ last' !! "qty" = Some (VInt 5)
      ∧ last' !! "price" = Some VNone
      ∧ ∀ k : string, k ≠ "qty" → k ≠ "price" → last' !! k = rice_open !! k.
Proof.
  do 3 (split; [reflexivity|]).
  exact (fragment_completes_last (bill_session [rice_open])
           (extraction_items [VDict qty5_fragment]) [] [] qty5_fragment
           [] rice_open eq_refl eq_refl eq_refl).
Defined.

Example rice_completed :
  items (fst (_merge_nlu_to_session (bill_session [rice_open])
                (extraction_items [VDict qty5_fragment])))
  = [mk_dict [("itemName", VStr "Rice"); ("qty", VInt 5); ("price", VNone)]].
Proof. reflexivity. Qed.

(** C3, as stated, fails: the session has no items, the nameless fragment
    is appended as an item, and the turn that merges it answers with
    the request to repeat the item name, not with the "which item?"
    prompt. *)
Lemma dangling_fragment_appended :
  items (bill_session []) = []
  ∧ items (fst (_merge_nlu_to_session (bill_session [])
                  (extraction_items [VDict qty5_fragment])))
    = [qty5_fragment]
  ∧ shown (snd (determine_next_step (one_user_store (bill_session [])) "u1"
                  "5" (extraction_items [VDict qty5_fragment]) 1 1))
    = Some ("Please say the item name again.", "listen").
Proof. repeat split; reflexivity. Qed.

(** C3, amended: merging an extraction whose items are one nameless
    fragment into a session without items, whatever else the session
    holds, returns normally and appends the fragment as the only item.
    When the session is live and in the item phase, the extraction
    carries nothing but the fragment and the text has no interrupt
    keyword, the turn that merges the fragment removes that item again
    and asks to repeat the item name (action listen), the session being
    as before but for [last_active].  The user's next turn gets the
    "which item?" prompt, provided it comes within the timeout, its text
    has no interrupt keyword and its extraction brings nothing. *)
Theorem dangling_fragment_self_heals :
  (∀ (s : session) (it nlu_data : dict),
     items s = [] →
     truthy (py_get it "itemName") = false →
     nlu_items nlu_data = VList [VDict it] →
     _merge_nlu_to_session s nlu_data
     = (set_items [it] (merge_basic_fields s nlu_data), Returns tt))
  ∧ (∀ (sessions : store) (user_uid txt : string) (it nlu_data : dict)
       (now now' : float) (s : session),
       live sessions user_uid now s →
       in_item_phase s →
       items s = [] →
       truthy (py_get it "itemName") = false →
       carries_item nlu_data it →
       is_interrupt txt = false →
       determine_next_step sessions user_uid txt nlu_data now now'
       = (<[user_uid := set_last_active now' s]> sessions,
          Returns {| text := [Lit "Please say the item name again."];
                     action := "listen";
                     payload := None |})
       ∧ ∀ (txt2 : string) (nlu_data2 : dict) (later later' : float),
           (later - now' <=? SESSION_TIMEOUT)%float = true →
           is_interrupt txt2 = false →
           carries_nothing nlu_data2 →
           snd (determine_next_step
                  (<[user_uid := set_last_active now' s]> sessions)
                  user_uid txt2 nlu_data2 later later')
           = Returns {| text := [Lit "कोणता आयटम ॲड करायचा? (Which item?)"];
                        action := "listen";
                        payload := None |}).
Proof.
  split.
  - intros s it nlu_data Hs _ Hl. by apply merge_first_item.
  - intros sessions user_uid txt it nlu_data now now' s
      Hlive Hph Hs Hn (Hni & Hnc & Hl) Hint.
    split.
    + rewrite (item_turn_in_item_phase sessions user_uid txt now now' s
                 Hlive Hph Hint nlu_data
                 (set_items [it] (set_last_active now' s))); try done.
      * rewrite (item_phase_nameless _ _ [] it) by done.
        simpl. by destruct s; simpl in *; subst.
      * rewrite (merge_first_item _ it) by done.
        by rewrite merge_basic_fields_none.
    + intros txt2 nlu_data2 later later' Hlater Hint2 Hnone.
      rewrite (idle_turn_in_item_phase _ user_uid txt2 later later'
                 (set_last_active now' s)); try done.
      * by rewrite item_phase_no_items.
      * split; [apply lookup_insert_eq | done].
Qed.

Lemma dangling_fragment_self_heals_witness :
  live (one_user_store (bill_session [])) "u1" 1 (bill_session [])
  ∧ in_item_phase (bill_session [])
  ∧ carries_item (extraction_items [VDict qty5_fragment]) qty5_fragment
  ∧ carries_nothing ∅
  ∧ (10 - 2 <=? SESSION_TIMEOUT)%float = true
  ∧ _merge_nlu_to_session (sale_session [])
      (extraction_items [VDict qty5_fragment])
    = (sale_session [qty5_fragment], Returns tt)
  ∧ determine_next_step (one_user_store (bill_session [])) "u1" "5"
      (extraction_items [VDict qty5_fragment]) 1 2
    = (<["u1" := set_last_active 2 (bill_session [])]>
         (one_user_store (bill_session [])),
       Returns (listen item_name_again_prompt))
  ∧ snd (determine_next_step
           (<["u1" := set_last_active 2 (bill_session [])]>
              (one_user_store (bill_session [])))
           "u1" "ok" ∅ 10 11)
    = Returns (listen which_item_prompt).
Proof.
  assert (H1 : live (one_user_store (bill_session [])) "u1" 1
                 (bill_session []))
    by (split; reflexivity).
  assert (H2 : in_item_phase (bill_session [])) by (split; reflexivity).
  assert (H3 : carries_item (extraction_items [VDict qty5_fragment])
                 qty5_fragment) by (repeat split; reflexivity).
  assert (H4 : carries_nothing ∅) by (repeat split; reflexivity).
  assert (H5 : (10 - 2 <=? SESSION_TIMEOUT)%float = true) by reflexivity.
  do 5 (split; [assumption|]).
  destruct dangling_fragment_self_heals as [Hmerge Hturn].
  split.
  - exact (Hmerge (sale_session []) qty5_fragment
             (extraction_items [VDict qty5_fragment])
             eq_refl eq_refl eq_refl).
  - destruct (Hturn (one_user_store (bill_session [])) "u1" "5"
                qty5_fragment (extraction_items [VDict qty5_fragment])
                1%float 2%float (bill_session [])
                H1 H2 eq_refl eq_refl H3 eq_refl)
      as [Ht Hnext].
    split; [exact Ht|].
    exact (Hnext "ok" ∅ 10%float 11%float H5 eq_refl H4).
Defined.




Example zero_price_reprompted :
  shown (snd (determine_next_step
                (one_user_store (bill_session [rice_zero_price])) "u1"
                "ok" ∅ 1 2))
  = Some ("'Rice' ची किंमत काय? (Price?)", "listen").
Proof. reflexivity. Qed.

Example zero_fragment_ignored :
  _merge_nlu_to_session (bill_session [rice_open])
    (extraction_items [VDict zero_fragment])
  = (bill_session [rice_open], Returns tt).
Proof. reflexivity. Qed.

(** * The dialogue of a sale *)

(** C2 on the code.  With the intent SALE, which is what the extractor
    names a sale, the first turn asks for the customer name; the second
    turn, instead of asking for an item, already returns the confirmation
    summary, with no items, and so does every later turn. *)
Theorem sale_dialogue_skips_items :
  shown <$> run_turns ∅ "u1" (sale_dialogue "SALE")
  = [Some ("ग्राहकाचं नाव सांगा? (Customer Name?)", "listen");
     Some ("Complete. Validating: SALE for Ramesh.  Items: . Shall I save it?",
           "confirm");
     Some ("Complete. Validating: SALE for Ramesh.  Items: 5 Rice. Shall I save it?",
           "confirm");
     Some ("Complete. Validating: SALE for Ramesh.  Items: 5 Rice. Shall I save it?",
           "confirm")].
Proof. vm_compute. reflexivity. Qed.

(** When the intent is named ["create_bill"], the one name for which the
    planner enters the item phase, the same dialogue asks for the item,
    acknowledges it, and confirms at the end with "Ramesh" and "5 Rice"
    in the summary. *)
Lemma create_bill_dialogue :
  shown <$> run_turns ∅ "u1" (sale_dialogue "create_bill")
  = [Some ("ग्राहकाचं नाव सांगा? (Customer Name?)", "listen");
     Some ("कोणता आयटम ॲड करायचा? (Which item?)", "listen");
     Some ("Added 5 Rice. आणखी काही? (Anything else?)", "listen");
     Some ("Complete. Validating: create_bill for Ramesh.  Items: 5 Rice. Shall I save it?",
           "confirm")].
Proof. vm_compute. reflexivity. Qed.

(** The item phase is entered for no other intent. *)
Lemma item_phase_only_for_create_bill (s : session) (txt : string)
    (nlu_data : dict) :
  truthy (intent s) = true →
  truthy (customerName s) = true →
  eq_str (intent s) "create_bill" = false →
  plan s txt nlu_data = confirmation s.
Proof.
  intros Hi Hc He. unfold plan, customer_phase. by rewrite Hi, Hc, He.
Qed.

(** C9 on the code.  One turn on an empty store, the text "done" and an
    extraction with two named items of which the first has no ["qty"]
    key: the last item is complete, the turn goes on to the confirmation,
    and the summary raises [KeyError] on the first item. *)
Theorem planner_raises_on_missing_qty :
  snd (determine_next_step ∅ "u1" "done" missing_qty_extraction 0 0)
  = Raises (KeyError "qty").
Proof. vm_compute. reflexivity. Qed.

(** The same happens for every session that reaches the confirmation with
    an item lacking the key. *)
Lemma confirmation_raises (s : session) (pre post : list dict) (i : dict) :
  items s = pre ++ i :: post →
  i !! "qty" = None →
  (∀ j, j ∈ pre → is_Some (j !! "qty") ∧ is_Some (j !! "itemName")) →
  confirmation s = (s, Raises (KeyError "qty")).
Proof.
  intros Hs Hi Hpre. unfold confirmation. rewrite Hs. clear Hs.
  assert (Hsum : items_summary (pre ++ i :: post) = Raises (KeyError "qty")).
  { induction pre as [|j pre IH]; simpl.
    - unfold item_summary, py_item. by rewrite Hi.
    - destruct (Hpre j) as [[q Hq] [n Hn]]; [by left|].
      unfold item_summary at 1, py_item. rewrite Hq, Hn.
      rewrite IH; [done|]. intros j' Hj'. apply Hpre. by right. }
  by rewrite Hsum.
Qed.

(** * Further properties of the manager *)

(** ** What a turn does to the store *)

Lemma get_session_other (sessions : store) (user_uid other : string)
    (now : float) :
  user_uid ≠ other →
  snd (get_session sessions user_uid now) !! other = sessions !! other.
Proof.
  intros Hne. unfold get_session, clear_session.
  destruct (sessions !! user_uid) as [s|]; simpl;
    [destruct (timed_out now s); simpl|];
    by rewrite ?lookup_insert_ne, ?lookup_delete_ne.
Qed.

(** What the planner leaves alone in the session.  The assignment of
    [active] in the intent phase needs a session without intent and an
    extraction with one. *)
Lemma confirmation_session (s : session) : fst (confirmation s) = s.
Proof. unfold confirmation. by destruct (items_summary (items s)). Qed.

Lemma item_phase_frame (s : session) (txt : string) :
  let s' := fst (item_phase s txt) in
  active s' = active s ∧ intent s' = intent s
  ∧ customerName s' = customerName s ∧ payment s' = payment s
  ∧ turn_count s' = turn_count s ∧ last_active s' = last_active s
  ∧ last_question s' = last_question s
  ∧ (items s' = items s ∨ items s' = removelast (items s)).
Proof.
  unfold item_phase. destruct (last (items s)) as [i|]; [|by intuition].
  repeat match goal with
         | |- context [if ?b then _ else _] => destruct b
         end; simpl; rewrite ?confirmation_session; by intuition.
Qed.

Lemma customer_phase_frame (s : session) (txt : string) :
  let s' := fst (customer_phase s txt) in
  active s' = active s ∧ intent s' = intent s
  ∧ customerName s' = customerName s ∧ payment s' = payment s
  ∧ turn_count s' = turn_count s ∧ last_active s' = last_active s
  ∧ (items s' = items s ∨ items s' = removelast (items s)).
Proof.
  unfold customer_phase.
  destruct (negb (truthy (customerName s))); [by intuition|].
  destruct (eq_str (intent s) "create_bill").
  - destruct (item_phase_frame s txt) as (? & ? & ? & ? & ? & ? & ? & ?).
    by intuition.
  - rewrite confirmation_session. by intuition.
Qed.

Lemma plan_frame (s : session) (txt : string) (nlu_data : dict) :
  (truthy (py_get nlu_data "intent") = true → truthy (intent s) = true) →
  let s' := fst (plan s txt nlu_data) in
  active s' = active s ∧ intent s' = intent s
  ∧ customerName s' = customerName s ∧ payment s' = payment s
  ∧ turn_count s' = turn_count s ∧ last_active s' = last_active s
  ∧ (items s' = items s ∨ items s' = removelast (items s)).
Proof.
  intros Hdead. unfold plan.
  destruct (truthy (intent s)) eqn:Hi; simpl.
  - apply customer_phase_frame.
  - destruct (truthy (py_get nlu_data "intent")) eqn:Hn; [|by intuition].
    by specialize (Hdead eq_refl).
Qed.

(** The session on which the planner runs has an intent whenever the
    extraction has one. *)
Lemma merged_intent_truthy (s : session) (nlu_data : dict) :
  truthy (py_get nlu_data "intent") = true →
  truthy (intent (fst (_merge_nlu_to_session s nlu_data))) = true.
Proof.
  intros Hn.
  destruct (merge_frame s nlu_data) as (_ & _ & _ & _ & _ & -> & _).
  by rewrite intent_merge_basic_fields, Hn.
Qed.

(** A turn without an interrupt, in three steps. *)
Lemma determine_next_step_steps (sessions : store) (user_uid txt : string)
    (nlu_data : dict) (now now' : float) :
  is_interrupt txt = false →
  let s0 := set_last_active now' (fst (get_session sessions user_uid now)) in
  let sessions0 := snd (get_session sessions user_uid now) in
  let m := _merge_nlu_to_session s0 nlu_data in
  determine_next_step sessions user_uid txt nlu_data now now'
  = match snd m with
    | Raises e => (<[user_uid := fst m]> sessions0, Raises e)
    | Returns _ =>
        (<[user_uid := fst (plan (fst m) txt nlu_data)]> sessions0,
         snd (plan (fst m) txt nlu_data))
    end.
Proof.
  intros Hint. unfold determine_next_step.
  destruct (get_session sessions user_uid now) as [s sessions0]. simpl.
  rewrite Hint.
  destruct (_merge_nlu_to_session (set_last_active now' s) nlu_data)
    as [s1 [[]|e]]; simpl; [|done].
  by destruct (plan s1 txt nlu_data).
Qed.

(** The user's session after a turn without an interrupt, whether the
    turn returned or raised. *)
Lemma session_after_turn (sessions : store) (user_uid txt : string)
    (nlu_data : dict) (now now' : float) :
  is_interrupt txt = false →
  ∃ s' : session,
    fst (determine_next_step sessions user_uid txt nlu_data now now')
    = <[user_uid := s']> (snd (get_session sessions user_uid now))
    ∧ active s' = active (fst (get_session sessions user_uid now))
    ∧ payment s' = payment (fst (get_session sessions user_uid now))
    ∧ turn_count s' = turn_count (fst (get_session sessions user_uid now))
    ∧ last_active s' = now'.
Proof.
  intros Hint. rewrite determine_next_step_steps by done.
  set (s0 := set_last_active now' (fst (get_session sessions user_uid now))).
  destruct (merge_frame s0 nlu_data) as (Ha & Hp & _ & Ht & Hl & _ & _).
  destruct (snd (_merge_nlu_to_session s0 nlu_data)) as [[]|e] eqn:Hm; simpl.
  - destruct (plan_frame (fst (_merge_nlu_to_session s0 nlu_data)) txt
                nlu_data (merged_intent_truthy s0 nlu_data))
      as (Ha' & _ & _ & Hp' & Ht' & Hl' & _).
    eexists. split; [done|].
    by rewrite Ha', Hp', Ht', Hl', Ha, Hp, Ht, Hl.
  - eexists. split; [done|]. by rewrite Ha, Hp, Ht, Hl.
Qed.

Lemma get_session_stale (sessions : store) (user_uid : string) (now : float)
    (s : session) :
  sessions !! user_uid = Some s →
  timed_out now s = true →
  get_session sessions user_uid now
  = get_session (delete user_uid sessions) user_uid now.
Proof.
  intros Hs Ht. unfold get_session, clear_session.
  by rewrite Hs, Ht, lookup_delete_eq.
Qed.

Lemma get_session_idle (sessions : store) (user_uid : string) (now : float) :
  (∀ v s, sessions !! v = Some s → idle_fields s) →
  idle_fields (fst (get_session sessions user_uid now)).
Proof.
  intros Hall. unfold get_session.
  destruct (sessions !! user_uid) as [s|] eqn:Hs; simpl;
    [destruct (timed_out now s); simpl|]; by eauto.
Qed.

(** The shape of what the planner returns. *)
Lemma confirmation_shape (s : session) (r : response) :
  snd (confirmation s) = Returns r →
  action r = "confirm" ∧ payload r = Some s.
Proof.
  unfold confirmation. destruct (items_summary (items s)); simpl; [|done].
  by intros [= <-].
Qed.

Lemma item_phase_shape (s : session) (txt : string) (r : response) :
  snd (item_phase s txt) = Returns r →
  (action r = "listen" ∧ payload r = None)
  ∨ (action r = "confirm" ∧ payload r = Some (fst (item_phase s txt))).
Proof.
  unfold item_phase. destruct (last (items s)) as [i|];
    [|intros [= <-]; by left].
  repeat match goal with
         | |- context [if ?b then _ else _] => destruct b
         end; simpl; try (intros [= <-]; by left).
  rewrite confirmation_session. intros Hc. right.
  by apply confirmation_shape.
Qed.

Lemma plan_shape (s : session) (txt : string) (nlu_data : dict)
    (r : response) :
  snd (plan s txt nlu_data) = Returns r →
  (action r = "listen" ∧ payload r = None)
  ∨ (action r = "confirm" ∧ payload r = Some (fst (plan s txt nlu_data))).
Proof.
  assert (Hc : ∀ t, snd (customer_phase t txt) = Returns r →
    (action r = "listen" ∧ payload r = None)
    ∨ (action r = "confirm" ∧ payload r = Some (fst (customer_phase t txt)))).
  { intros t. unfold customer_phase.
    destruct (negb (truthy (customerName t))); [intros [= <-]; by left|].
    destruct (eq_str (intent t) "create_bill"); [apply item_phase_shape|].
    rewrite confirmation_session. intros Hr. right.
    by apply confirmation_shape. }
  unfold plan. destruct (negb (truthy (intent s))); [|apply Hc].
  destruct (truthy (py_get nlu_data "intent")); [apply Hc|].
  intros [= <-]. by left.
Qed.

(** X1: a turn of one user, whatever it does and also when it raises,
    leaves the entry of every other user as it was. *)
Theorem turn_leaves_other_users (sessions : store)
    (user_uid other txt : string) (nlu_data : dict) (now now' : float) :
  user_uid ≠ other →
  fst (determine_next_step sessions user_uid txt nlu_data now now') !! other
  = sessions !! other.
Proof.
  intros Hne. destruct (is_interrupt txt) eqn:Hint.
  - unfold determine_next_step.
    pose proof (get_session_other sessions user_uid other now Hne) as Ho.
    destruct (get_session sessions user_uid now) as [s sessions0].
    rewrite Hint. unfold clear_session. simpl in *.
    by rewrite lookup_delete_ne.
  - destruct (session_after_turn sessions user_uid txt nlu_data now now' Hint)
      as (s' & -> & _).
    by rewrite lookup_insert_ne, get_session_other.
Qed.

Lemma turn_leaves_other_users_witness :
  "u2" ≠ "u1"
  ∧ fst (determine_next_step (one_user_store (bill_session [rice_full])) "u2"
           "sale" (extraction_intent "SALE") 5 5) !! "u1"
    = Some (bill_session [rice_full]).
Proof.
  assert (Hne : "u2" ≠ "u1") by discriminate.
  split; [exact Hne|].
  exact (turn_leaves_other_users (one_user_store (bill_session [rice_full]))
           "u2" "u1" "sale" (extraction_intent "SALE") 5 5 Hne).
Defined.

(** X2: a session that is older than the timeout counts for nothing: the
    turn returns, and leaves in the store, exactly what it would if the
    user had no session. *)
Theorem stale_session_forgotten (sessions : store) (user_uid txt : string)
    (nlu_data : dict) (now now' : float) (s : session) :
  sessions !! user_uid = Some s →
  (60 <? now - last_active s)%float = true →
  determine_next_step sessions user_uid txt nlu_data now now'
  = determine_next_step (delete user_uid sessions) user_uid txt nlu_data
      now now'.
Proof.
  intros Hs Hold. unfold determine_next_step.
  by rewrite (get_session_stale _ _ _ s).
Qed.

Lemma stale_session_forgotten_witness :
  one_user_store (bill_session [rice_full]) !! "u1"
  = Some (bill_session [rice_full])
  ∧ (60 <? 100 - last_active (bill_session [rice_full]))%float = true
  ∧ determine_next_step (one_user_store (bill_session [rice_full])) "u1"
      "done" ∅ 100 100
    = determine_next_step
        (delete "u1" (one_user_store (bill_session [rice_full]))) "u1"
        "done" ∅ 100 100.
Proof.
  split; [reflexivity|]. split; [reflexivity|].
  apply (stale_session_forgotten (one_user_store (bill_session [rice_full]))
           "u1" "done" ∅ 100 100 (bill_session [rice_full]));
    reflexivity.
Defined.

(** X3: a response has one of three shapes: listen without payload;
    cancel without payload, the user's entry being gone; confirm with,
    as payload, the session that is then stored for the user. *)
Theorem response_shape (sessions : store) (user_uid txt : string)
    (nlu_data : dict) (now now' : float) (r : response) :
  snd (determine_next_step sessions user_uid txt nlu_data now now')
  = Returns r →
  (action r = "listen" ∧ payload r = None)
  ∨ (action r = "cancel" ∧ payload r = None
     ∧ fst (determine_next_step sessions user_uid txt nlu_data now now')
         !! user_uid = None)
  ∨ (action r = "confirm"
     ∧ payload r
       = fst (determine_next_step sessions user_uid txt nlu_data now now')
           !! user_uid).
Proof.
  destruct (is_interrupt txt) eqn:Hint.
  - unfold determine_next_step.
    destruct (get_session sessions user_uid now) as [s sessions0].
    rewrite Hint. simpl. intros [= <-]. right. left.
    unfold clear_session. by rewrite lookup_delete_eq.
  - rewrite determine_next_step_steps by done. simpl.
    destruct (snd (_merge_nlu_to_session _ nlu_data)) as [[]|e]; [|done].
    simpl. intros [Hl | [Ha Hp]]%plan_shape; [by left|].
    right. right. by rewrite lookup_insert_eq.
Qed.

Lemma response_shape_witness :
  ∃ r : response,
    snd (determine_next_step (one_user_store (bill_session [rice_full])) "u1"
           "done" ∅ 1 2) = Returns r
    ∧ action r = "confirm"
    ∧ payload r
      = fst (determine_next_step (one_user_store (bill_session [rice_full]))
               "u1" "done" ∅ 1 2) !! "u1".
Proof.
  destruct (snd (determine_next_step
                   (one_user_store (bill_session [rice_full])) "u1"
                   "done" ∅ 1 2)) as [r|e] eqn:E; [|by vm_compute in E].
  exists r. split; [reflexivity|].
  destruct (response_shape (one_user_store (bill_session [rice_full])) "u1"
              "done" ∅ 1 2 r E) as [[Ha _] | [[Ha _] | [Ha Hp]]];
    [exfalso; vm_compute in E; injection E as <-; discriminate Ha ..|].
  by split.
Defined.

(** X4: after a turn without an interrupt, returned or raised, the user
    has a session whose [last_active] is the time of the turn; for the
    next 60 seconds [get_session] returns that session and leaves the
    store alone. *)
Theorem turn_keeps_session_alive (sessions : store) (user_uid txt : string)
    (nlu_data : dict) (now now' later : float) :
  is_interrupt txt = false →
  (later - now' <=? 60)%float = true →
  ∃ s' : session,
    fst (determine_next_step sessions user_uid txt nlu_data now now')
      !! user_uid = Some s'
    ∧ last_active s' = now'
    ∧ get_session
        (fst (determine_next_step sessions user_uid txt nlu_data now now'))
        user_uid later
      = (s', fst (determine_next_step sessions user_uid txt nlu_data now now')).
Proof.
  intros Hint Hlater.
  destruct (session_after_turn sessions user_uid txt nlu_data now now' Hint)
    as (s' & -> & _ & _ & _ & Hl).
  exists s'. split; [apply lookup_insert_eq|]. split; [done|].
  apply get_session_live; [apply lookup_insert_eq|].
  apply timed_out_false. by rewrite Hl.
Qed.

Lemma turn_keeps_session_alive_witness :
  is_interrupt "sale" = false
  ∧ (62 - 2 <=? 60)%float = true
  ∧ ∃ s' : session,
      fst (determine_next_step ∅ "u1" "sale" (extraction_intent "SALE") 1 2)
        !! "u1" = Some s'
      ∧ last_active s' = 2%float
      ∧ get_session
          (fst (determine_next_step ∅ "u1" "sale" (extraction_intent "SALE")
                  1 2)) "u1" 62
        = (s', fst (determine_next_step ∅ "u1" "sale"
                      (extraction_intent "SALE") 1 2)).
Proof.
  assert (Hl : (62 - 2 <=? 60)%float = true) by reflexivity.
  split; [reflexivity|]. split; [exact Hl|].
  exact (turn_keeps_session_alive ∅ "u1" "sale" (extraction_intent "SALE")
           1 2 62 eq_refl Hl).
Defined.

(** X5: no turn writes [active], [turn_count] or [payment].  If these
    fields are as [get_session] creates them (not active, count 0, no
    amount and no mode) in every session of the store, they are so in
    every session after the turn: a dialogue never becomes active, its
    turns are not counted, its payment is never filled. *)
Theorem turn_keeps_idle_fields (sessions : store) (user_uid txt : string)
    (nlu_data : dict) (now now' : float) :
  (∀ v s, sessions !! v = Some s → idle_fields s) →
  ∀ v s,
    fst (determine_next_step sessions user_uid txt nlu_data now now') !! v
    = Some s →
    idle_fields s.
Proof.
  intros Hall v s.
  pose proof (get_session_idle sessions user_uid now Hall) as Hidle.
  destruct (is_interrupt txt) eqn:Hint.
  - unfold determine_next_step.
    pose proof (get_session_other sessions user_uid v now) as Ho.
    destruct (get_session sessions user_uid now) as [s0 sessions0].
    rewrite Hint. unfold clear_session. simpl in *.
    destruct (decide (user_uid = v)) as [->|Hne].
    + by rewrite lookup_delete_eq.
    + rewrite lookup_delete_ne, Ho by done. apply Hall.
  - destruct (session_after_turn sessions user_uid txt nlu_data now now' Hint)
      as (s' & -> & Ha & Hp & Ht & _).
    destruct (decide (user_uid = v)) as [->|Hne].
    + rewrite lookup_insert_eq. intros [= <-].
      destruct Hidle as (? & ? & ?). unfold idle_fields.
      by rewrite Ha, Hp, Ht.
    + rewrite lookup_insert_ne, get_session_other by done. apply Hall.
Qed.

Lemma turn_keeps_idle_fields_witness :
  idle_fields (bill_session [rice_full])
  ∧ ∃ s : session,
      fst (determine_next_step (one_user_store (bill_session [rice_full]))
             "u1" "done" (extraction_intent "PAYMENT") 1 2) !! "u1" = Some s
      ∧ idle_fields s.
Proof.
  assert (Hb : idle_fields (bill_session [rice_full]))
    by (repeat split; reflexivity).
  split; [exact Hb|].
  eexists. split; [reflexivity|].
  apply (turn_keeps_idle_fields (one_user_store (bill_session [rice_full]))
           "u1" "done" (extraction_intent "PAYMENT") 1 2) with "u1";
    [|reflexivity].
  unfold one_user_store.
  intros v s [_ <-]%lookup_singleton_Some. exact Hb.
Defined.

(** ** What the merge does to the items *)

Lemma merge_item_dict (its : list dict) (d : dict) :
  snd (merge_item its (VDict d)) = Returns tt.
Proof.
  unfold merge_item.
  by destruct (negb (truthy (py_get d "itemName"))
               && match its with [] => false | _ :: _ => true end).
Qed.

Lemma merge_item_not_dict (its : list dict) (it : value) :
  (∀ d, it ≠ VDict d) →
  merge_item its it = (its, Raises (AttributeError "get")).
Proof. intros Hd. destruct it; try done. by destruct (Hd d). Qed.

Lemma merge_items_dicts (its : list dict) (ds : list dict) :
  snd (merge_items its (VDict <$> ds)) = Returns tt.
Proof.
  revert its. induction ds as [|d ds IH]; intros its; [done|].
  rewrite fmap_cons. cbn [merge_items].
  pose proof (merge_item_dict its d) as Hd.
  destruct (merge_item its (VDict d)) as [its' r]. simpl in Hd. subst r.
  apply IH.
Qed.

Lemma merge_items_outcome (its : list dict) (l : list value) :
  snd (merge_items its l) = Returns tt
  ∨ snd (merge_items its l) = Raises (AttributeError "get").
Proof.
  revert its. induction l as [|it l IH]; intros its; [by left|].
  cbn [merge_items].
  destruct it; try (by right).
  pose proof (merge_item_dict its d) as Hd.
  destruct (merge_item its (VDict d)) as [its' r]. simpl in Hd. subst r.
  apply IH.
Qed.

Lemma merge_items_returns (its : list dict) (l : list value) :
  snd (merge_items its l) = Returns tt → ∃ ds, l = VDict <$> ds.
Proof.
  revert its. induction l as [|it l IH]; intros its.
  - by exists [].
  - cbn [merge_items]. destruct it; try done.
    pose proof (merge_item_dict its d) as Hd.
    destruct (merge_item its (VDict d)) as [its' r]. simpl in Hd. subst r.
    intros [ds ->]%IH. by exists (d :: ds).
Qed.

(** X6: the merge returns normally exactly when the extraction's items
    are falsy (absent, null, empty) or a list of dicts.  It raises
    [AttributeError] when the items are a list with an element that is
    no dict (at the first such element), or a non-empty str or dict in
    the place of the list; it raises [TypeError] when they are a number
    other than zero or [True]. *)
Theorem merge_returns_iff (s : session) (nlu_data : dict) :
  (snd (_merge_nlu_to_session s nlu_data) = Returns tt
   ↔ truthy (nlu_items nlu_data) = false
     ∨ ∃ ds : list dict, nlu_items nlu_data = VList (VDict <$> ds))
  ∧ (∀ (ds : list dict) (bad : value) (rest : list value),
       nlu_items nlu_data = VList ((VDict <$> ds) ++ bad :: rest) →
       (∀ d, bad ≠ VDict d) →
       snd (_merge_nlu_to_session s nlu_data)
       = Raises (AttributeError "get"))
  ∧ (truthy (nlu_items nlu_data) = true →
     (∃ t : string, nlu_items nlu_data = VStr t)
     ∨ (∃ d : dict, nlu_items nlu_data = VDict d) →
     snd (_merge_nlu_to_session s nlu_data) = Raises (AttributeError "get"))
  ∧ (truthy (nlu_items nlu_data) = true →
     (∃ n : Z, nlu_items nlu_data = VInt n)
     ∨ (∃ x : float, nlu_items nlu_data = VFloat x)
     ∨ (∃ b : bool, nlu_items nlu_data = VBool b) →
     snd (_merge_nlu_to_session s nlu_data) = Raises TypeError).
Proof.
  split; [|split; [|split]].
  - unfold _merge_nlu_to_session.
    destruct (truthy (nlu_items nlu_data)) eqn:Ht; simpl;
      [|split; by auto].
    destruct (nlu_items nlu_data) as [| | | | |l|] eqn:Hl;
      try (simpl; split; [done | by intros [? | [? ?]]]).
    simpl.
    pose proof (merge_items_returns
                  (items (merge_basic_fields s nlu_data)) l) as Hr.
    pose proof (merge_items_dicts (items (merge_basic_fields s nlu_data)))
      as Hd.
    destruct (merge_items (items (merge_basic_fields s nlu_data)) l)
      as [its r] eqn:Hm. simpl in *.
    split.
    + intros [ds ->]%Hr. right. by exists ds.
    + intros [? | [ds [= ->]]]; [done|].
      specialize (Hd ds). by rewrite Hm in Hd.
  - intros ds bad rest Hl Hbad. unfold _merge_nlu_to_session. rewrite Hl.
    replace (truthy (VList ((VDict <$> ds) ++ bad :: rest))) with true
      by (by destruct ds).
    cbn [merge_new_items]. rewrite merge_items_app.
    pose proof (merge_items_dicts (items (merge_basic_fields s nlu_data)) ds)
      as Hd.
    destruct (merge_items (items (merge_basic_fields s nlu_data))
                (VDict <$> ds)) as [its r].
    simpl in Hd. subst r. cbn [merge_items].
    by rewrite merge_item_not_dict.
  - intros Ht Hv. unfold _merge_nlu_to_session. rewrite Ht.
    by destruct Hv as [[t ->] | [d ->]].
  - intros Ht Hv. unfold _merge_nlu_to_session. rewrite Ht.
    by destruct Hv as [[n ->] | [[x ->] | [b ->]]].
Qed.

Lemma merge_returns_iff_witness :
  snd (_merge_nlu_to_session (bill_session [rice_full])
         (extraction_items [VDict dal_full; VNone]))
  = Raises (AttributeError "get")
  ∧ snd (_merge_nlu_to_session (bill_session [rice_full])
           (mk_dict [("items", VStr "Dal")]))
    = Raises (AttributeError "get")
  ∧ snd (_merge_nlu_to_session (bill_session [rice_full])
           (mk_dict [("items", VInt 2)]))
    = Raises TypeError.
Proof.
  split; [|split].
  - apply (merge_returns_iff (bill_session [rice_full])
             (extraction_items [VDict dal_full; VNone]))
      with [dal_full] VNone []; [reflexivity | discriminate].
  - apply (merge_returns_iff (bill_session [rice_full])
             (mk_dict [("items", VStr "Dal")])); [reflexivity|].
    left. by eexists.
  - apply (merge_returns_iff (bill_session [rice_full])
             (mk_dict [("items", VInt 2)])); [reflexivity|].
    left. by eexists.
Defined.



Lemma removelast_prefix {A} (l : list A) : removelast l `prefix_of` l.
Proof.
  destruct l as [|x l _] using rev_ind; [done|].
  rewrite removelast_last. by apply prefix_app_r.
Qed.

Lemma alter_last {A} (f : A → A) (pre : list A) (x : A) :
  alter f (pred (length (pre ++ [x]))) (pre ++ [x]) = pre ++ [f x].
Proof.
  replace (pred (length (pre ++ [x]))) with (length pre + 0)%nat
    by (rewrite length_app; simpl; lia).
  by rewrite alter_app_r.
Qed.

Lemma merge_item_grows (its : list dict) (it : value) :
  removelast its `prefix_of` removelast (fst (merge_item its it))
  ∧ (length its ≤ length (fst (merge_item its it)))%nat.
Proof.
  destruct it; try done. unfold merge_item.
  destruct (negb (truthy (py_get d "itemName"))
            && match its with [] => false | _ :: _ => true end); simpl.
  - destruct its as [|x pre _] using rev_ind; [done|].
    rewrite alter_last, !removelast_last, !length_app. by simpl.
  - rewrite removelast_last, length_app. split; [|lia].
    apply removelast_prefix.
Qed.

Lemma merge_items_grows (its : list dict) (l : list value) :
  removelast its `prefix_of` removelast (fst (merge_items its l))
  ∧ (length its ≤ length (fst (merge_items its l)))%nat.
Proof.
  revert its. induction l as [|it l IH]; intros its; [done|].
  cbn [merge_items].
  destruct (merge_item_grows its it) as [Hp Hn].
  destruct (merge_item its it) as [its' [[]|e]]; simpl in *; [|done].
  destruct (IH its') as [Hp' Hn']. split; [by etrans | lia].
Qed.

(** X8: the merge never removes an item and never reorders: all items
    but the last stay where they are (the last one can be completed in
    place), and the list does not get shorter, whether the merge returns
    or raises. *)
Theorem merge_keeps_items (s : session) (nlu_data : dict) :
  removelast (items s)
    `prefix_of` items (fst (_merge_nlu_to_session s nlu_data))
  ∧ (length (items s)
     ≤ length (items (fst (_merge_nlu_to_session s nlu_data))))%nat.
Proof.
  unfold _merge_nlu_to_session.
  destruct (truthy (nlu_items nlu_data)).
  - destruct (nlu_items nlu_data) as [| | | | |l|]; simpl;
      rewrite ?items_merge_basic_fields;
      try (split; [apply removelast_prefix | done]).
    destruct (merge_items_grows (items s) l) as [Hp Hn].
    destruct (merge_items (items s) l) as [its r]. simpl in *.
    split; [|done]. etrans; [exact Hp | apply removelast_prefix].
  - simpl. rewrite items_merge_basic_fields.
    split; [apply removelast_prefix | done].
Qed.

Lemma complete_last_priced (it d : dict) :
  priced d → complete_last it d = d.
Proof.
  intros [Hq Hp]. unfold complete_last.
  rewrite Hq, andb_false_r. cbv zeta. by rewrite Hp, andb_false_r.
Qed.

Lemma merge_item_keeps_priced (its : list dict) (it : value) (i : nat)
    (d : dict) :
  its !! i = Some d → priced d → fst (merge_item its it) !! i = Some d.
Proof.
  intros Hi Hd. destruct it; try done. unfold merge_item.
  destruct (negb (truthy (py_get d0 "itemName"))
            && match its with [] => false | _ :: _ => true end); simpl.
  - rewrite list_lookup_alter.
    destruct (decide _) as [<-|]; rewrite Hi; simpl;
      by rewrite ?complete_last_priced.
  - by apply lookup_app_l_Some.
Qed.

Lemma merge_items_keeps_priced (its : list dict) (l : list value) (i : nat)
    (d : dict) :
  its !! i = Some d → priced d → fst (merge_items its l) !! i = Some d.
Proof.
  revert its. induction l as [|it l IH]; intros its Hi Hd; [done|].
  cbn [merge_items].
  pose proof (merge_item_keeps_priced its it i d Hi Hd) as Hk.
  destruct (merge_item its it) as [its' [[]|e]]; simpl in *; [|done].
  by apply IH.
Qed.

(** X9: an item that has a quantity and a price (both truthy) is final
    for the merge: whatever an extraction brings, the item stays at its
    place with all its keys and values. *)
Theorem merge_keeps_priced_items (s : session) (nlu_data : dict) (i : nat)
    (d : dict) :
  items s !! i = Some d →
  priced d →
  items (fst (_merge_nlu_to_session s nlu_data)) !! i = Some d.
Proof.
  intros Hi Hd. unfold _merge_nlu_to_session.
  destruct (truthy (nlu_items nlu_data)); simpl;
    [|by rewrite items_merge_basic_fields].
  destruct (nlu_items nlu_data) as [| | | | |l|]; simpl;
    rewrite ?items_merge_basic_fields; try done.
  pose proof (merge_items_keeps_priced (items s) l i d Hi Hd) as Hk.
  by destruct (merge_items (items s) l).
Qed.

Lemma merge_keeps_priced_items_witness :
  items (bill_session [rice_full]) !! 0%nat = Some rice_full
  ∧ priced rice_full
  ∧ items (fst (_merge_nlu_to_session (bill_session [rice_full])
                  (extraction_items [VDict zero_fragment; VDict qty5_fragment;
                                     VDict dal_full])))
      !! 0%nat = Some rice_full.
Proof.
  assert (Hp : priced rice_full) by (split; reflexivity).
  split; [reflexivity|]. split; [exact Hp|].
  exact (merge_keeps_priced_items (bill_session [rice_full])
           (extraction_items [VDict zero_fragment; VDict qty5_fragment;
                              VDict dal_full]) 0 rice_full eq_refl Hp).
Defined.

(** ** When the planner cannot raise *)

Lemma complete_last_summarizable (it last : dict) :
  summarizable last → summarizable (complete_last it last).
Proof.
  intros [Hq Hn]. split.
  - rewrite complete_last_qty. by destruct (_ && _).
  - by rewrite complete_last_other.
Qed.

Lemma Forall_removelast {A} (P : A → Prop) (l : list A) :
  Forall P l → Forall P (removelast l).
Proof.
  destruct l as [|x l _] using rev_ind; [done|].
  rewrite removelast_last. by intros [? _]%Forall_app.
Qed.

Lemma merge_items_summarizable (its ds : list dict) :
  Forall summarizable its →
  Forall summarizable ds →
  Forall summarizable (fst (merge_items its (VDict <$> ds))).
Proof.
  revert its. induction ds as [|d ds IH]; intros its Hits Hds; [done|].
  apply Forall_cons in Hds as [Hd Hds].
  rewrite fmap_cons. cbn [merge_items].
  assert (Hstep : Forall summarizable (fst (merge_item its (VDict d)))).
  { unfold merge_item. destruct (_ && _); simpl.
    - apply Forall_alter; [done|]. intros x _.
      apply complete_last_summarizable.
    - apply Forall_app. by split; [|apply Forall_singleton]. }
  pose proof (merge_item_dict its d) as Hr.
  destruct (merge_item its (VDict d)) as [its' r]. simpl in *. subst r.
  by apply IH.
Qed.

Lemma merge_summarizable (s : session) (nlu_data : dict) :
  Forall summarizable (items s) →
  summarizable_items nlu_data →
  snd (_merge_nlu_to_session s nlu_data) = Returns tt
  ∧ Forall summarizable (items (fst (_merge_nlu_to_session s nlu_data))).
Proof.
  intros Hs Hn. unfold _merge_nlu_to_session.
  destruct Hn as [-> | (ds & Hl & Hds)]; cbn [fst snd];
    [by rewrite items_merge_basic_fields|].
  rewrite Hl, items_merge_basic_fields.
  destruct ds as [|d ds];
    [cbn [fmap list_fmap truthy fst snd];
     by rewrite items_merge_basic_fields|].
  rewrite fmap_cons. cbn [truthy merge_new_items]. rewrite <- fmap_cons.
  pose proof (merge_items_dicts (items s) (d :: ds)) as Hr.
  pose proof (merge_items_summarizable (items s) (d :: ds) Hs Hds) as Hk.
  by destruct (merge_items (items s) (VDict <$> d :: ds)).
Qed.

Lemma items_summary_returns (its : list dict) :
  Forall summarizable its → ∃ parts, items_summary its = Returns parts.
Proof.
  induction 1 as [|i its [[q Hq] [n Hn]] _ [parts IH]]; simpl; [by eexists|].
  unfold item_summary, py_item. rewrite Hq, Hn, IH. by eexists.
Qed.

Lemma confirmation_returns (s : session) :
  Forall summarizable (items s) → returned (snd (confirmation s)).
Proof.
  intros [parts Hp]%items_summary_returns. unfold confirmation.
  rewrite Hp. by eexists.
Qed.

Lemma plan_returns (s : session) (txt : string) (nlu_data : dict) :
  Forall summarizable (items s) → returned (snd (plan s txt nlu_data)).
Proof.
  intros Hs.
  assert (Hi : ∀ t, items t = items s → returned (snd (item_phase t txt))).
  { intros t Ht. unfold item_phase. destruct (last (items t)); [|by eexists].
    repeat match goal with
           | |- context [if ?b then _ else _] => destruct b
           end; simpl; try by eexists.
    apply confirmation_returns. by rewrite Ht. }
  assert (Hc : ∀ t, items t = items s →
                    returned (snd (customer_phase t txt))).
  { intros t Ht. unfold customer_phase.
    destruct (negb (truthy (customerName t))); [by eexists|].
    destruct (eq_str (intent t) "create_bill"); [by apply Hi|].
    apply confirmation_returns. by rewrite Ht. }
  unfold plan. destruct (negb (truthy (intent s))); [|by apply Hc].
  destruct (truthy (py_get nlu_data "intent")); [by apply Hc | by eexists].
Qed.

Lemma get_session_summarizable (sessions : store) (user_uid : string)
    (now : float) :
  summarizable_store sessions →
  Forall summarizable (items (fst (get_session sessions user_uid now)))
  ∧ summarizable_store (snd (get_session sessions user_uid now)).
Proof.
  intros Hall. unfold get_session, clear_session.
  assert (Hnew : summarizable_store
                   (<[user_uid := new_session now]> sessions)).
  { intros v s. destruct (decide (user_uid = v)) as [->|Hne].
    - rewrite lookup_insert_eq. by intros [= <-].
    - rewrite lookup_insert_ne by done. apply Hall. }
  destruct (sessions !! user_uid) as [s|] eqn:Hs; simpl;
    [destruct (timed_out now s); simpl|];
    rewrite ?insert_delete_eq; split; try done; try by constructor.
  by apply (Hall user_uid).
Qed.

(** A turn with summarizable items on a summarizable store returns, and
    the store stays summarizable. *)
Lemma turn_summarizable (sessions : store) (user_uid txt : string)
    (nlu_data : dict) (now now' : float) :
  summarizable_store sessions →
  summarizable_items nlu_data →
  returned (snd (determine_next_step sessions user_uid txt nlu_data now now'))
  ∧ summarizable_store
      (fst (determine_next_step sessions user_uid txt nlu_data now now')).
Proof.
  intros Hall Hn.
  destruct (get_session_summarizable sessions user_uid now Hall) as [H0 Hst].
  destruct (is_interrupt txt) eqn:Hint.
  - unfold determine_next_step.
    destruct (get_session sessions user_uid now) as [s0 sessions0].
    rewrite Hint. unfold clear_session. simpl in *. split; [by eexists|].
    intros v s [_ Hv]%lookup_delete_Some. by apply (Hst v).
  - rewrite determine_next_step_steps by done.
    set (s0 := set_last_active now' (fst (get_session sessions user_uid now))).
    destruct (merge_summarizable s0 nlu_data H0 Hn) as [Hr Hk].
    rewrite Hr. simpl.
    split; [by apply plan_returns|].
    intros v s. destruct (decide (user_uid = v)) as [->|Hne].
    + rewrite lookup_insert_eq. intros [= <-].
      destruct (plan_frame (fst (_merge_nlu_to_session s0 nlu_data)) txt
                  nlu_data (merged_intent_truthy s0 nlu_data))
        as (_ & _ & _ & _ & _ & _ & [-> | ->]);
        [done | by apply Forall_removelast].
    + rewrite lookup_insert_ne by done. apply Hst.
Qed.

(** X10: when every item in the store and every item the extractions
    bring is a dict with the keys ["qty"] and ["itemName"] (with any
    values, null included), no turn of a dialogue raises: every turn
    returns a response, whatever the texts and the other fields are. *)
Theorem dialogue_never_raises (sessions : store) (user_uid : string)
    (turns : list (float * string * dict)) :
  summarizable_store sessions →
  Forall (λ turn, summarizable_items (snd turn)) turns →
  Forall returned (run_turns sessions user_uid turns).
Proof.
  intros Hall Hturns. revert sessions Hall.
  induction Hturns as [|[[t txt] nlu_data] turns Hn _ IH];
    intros sessions Hall; [by constructor|].
  cbn [run_turns].
  destruct (turn_summarizable sessions user_uid txt nlu_data t t Hall Hn)
    as [Hr Hst].
  destruct (determine_next_step sessions user_uid txt nlu_data t t)
    as [sessions' r].
  constructor; [done | by apply IH].
Qed.

Lemma dialogue_never_raises_witness :
  Forall (λ turn, summarizable_items (snd turn)) (sale_dialogue "create_bill")
  ∧ Forall returned (run_turns ∅ "u1" (sale_dialogue "create_bill")).
Proof.
  assert (Hf : summarizable_items (extraction_items [VDict rice_full])).
  { right. exists [rice_full]. split; [reflexivity|].
    apply Forall_singleton. split; by eexists. }
  assert (Hturns : Forall (λ turn, summarizable_items (snd turn))
                     (sale_dialogue "create_bill")).
  { unfold sale_dialogue.
    repeat (apply List.Forall_cons; [first [exact Hf | by left]|]).
    apply List.Forall_nil. }
  split; [exact Hturns|].
  apply (dialogue_never_raises ∅ "u1" (sale_dialogue "create_bill"));
    [|exact Hturns].
  intros v s Hs. by rewrite lookup_empty in Hs.
Defined.

(** ** Phases that do not come back *)

Lemma merge_keeps_known (s : session) (nlu_data : dict) :
  truthy (intent s) = true →
  truthy (customerName s) = true →
  truthy (intent (fst (_merge_nlu_to_session s nlu_data))) = true
  ∧ truthy (customerName (fst (_merge_nlu_to_session s nlu_data))) = true.
Proof.
  intros Hi Hc.
  destruct (merge_frame s nlu_data) as (_ & _ & _ & _ & _ & -> & ->).
  rewrite intent_merge_basic_fields, customerName_merge_basic_fields.
  split.
  - by destruct (truthy (py_get nlu_data "intent")) eqn:E.
  - by destruct (truthy (py_get nlu_data "customerName")) eqn:E.
Qed.

Lemma confirmation_text (s : session) (r : response) :
  snd (confirmation s) = Returns r →
  text r ≠ intent_prompt ∧ text r ≠ customer_prompt.
Proof.
  unfold confirmation. destruct (items_summary (items s)); simpl; [|done].
  by intros [= <-].
Qed.

Lemma item_phase_text (s : session) (txt : string) (r : response) :
  snd (item_phase s txt) = Returns r →
  text r ≠ intent_prompt ∧ text r ≠ customer_prompt.
Proof.
  unfold item_phase. destruct (last (items s)) as [i|];
    [|by intros [= <-]].
  repeat match goal with
         | |- context [if ?b then _ else _] => destruct b
         end; simpl; try by intros [= <-].
  apply confirmation_text.
Qed.

Lemma plan_known (s : session) (txt : string) (nlu_data : dict) :
  truthy (intent s) = true →
  truthy (customerName s) = true →
  plan s txt nlu_data
  = if eq_str (intent s) "create_bill"
    then item_phase s txt else confirmation s.
Proof. intros Hi Hc. unfold plan, customer_phase. by rewrite Hi, Hc. Qed.

(** X11: an intent and a customer name, once the session has them, are
    never lost and never asked for again.  On a live session with both,
    whatever the text and the extraction, the turn does not answer with
    the intent prompt or the customer prompt, and unless the text has an
    interrupt keyword the session stored afterwards has again an intent
    and a customer name (the extraction can replace them, not erase
    them). *)
Theorem known_fields_stay_known (sessions : store) (user_uid txt : string)
    (nlu_data : dict) (now now' : float) (s : session) :
  live sessions user_uid now s →
  truthy (intent s) = true →
  truthy (customerName s) = true →
  (∀ r : response,
     snd (determine_next_step sessions user_uid txt nlu_data now now')
     = Returns r →
     text r ≠ intent_prompt ∧ text r ≠ customer_prompt)
  ∧ (is_interrupt txt = false →
     ∃ s' : session,
       fst (determine_next_step sessions user_uid txt nlu_data now now')
         !! user_uid = Some s'
       ∧ truthy (intent s') = true
       ∧ truthy (customerName s') = true).
Proof.
  intros [Hs Hl] Hi Hc.
  destruct (is_interrupt txt) eqn:Hint.
  - split; [|done]. intros r. unfold determine_next_step.
    destruct (get_session sessions user_uid now) as [s0 sessions0].
    rewrite Hint. simpl. by intros [= <-].
  - rewrite determine_next_step_steps by done.
    rewrite (get_session_live _ _ _ s) by (done || by apply timed_out_false).
    cbn [fst snd].
    destruct (merge_keeps_known (set_last_active now' s) nlu_data Hi Hc)
      as [Hi' Hc'].
    set (m := _merge_nlu_to_session (set_last_active now' s) nlu_data) in *.
    destruct (snd m) as [[]|e] eqn:Hm; cbn [fst snd].
    + destruct (plan_frame (fst m) txt nlu_data (λ _, Hi'))
        as (_ & Hpi & Hpc & _).
      split.
      * intros r. rewrite plan_known by done.
        destruct (eq_str (intent (fst m)) "create_bill");
          [apply item_phase_text | apply confirmation_text].
      * intros _. eexists. split; [apply lookup_insert_eq|].
        by rewrite Hpi, Hpc.
    + split; [done|]. intros _. eexists.
      split; [apply lookup_insert_eq | done].
Qed.

Lemma known_fields_stay_known_witness :
  live (one_user_store (bill_session [])) "u1" 1 (bill_session [])
  ∧ truthy (intent (bill_session [])) = true
  ∧ truthy (customerName (bill_session [])) = true
  ∧ ∃ s' : session,
      fst (determine_next_step (one_user_store (bill_session [])) "u1"
             "payment" (extraction_intent "PAYMENT") 1 2) !! "u1" = Some s'
      ∧ truthy (intent s') = true
      ∧ truthy (customerName s') = true.
Proof.
  assert (Hl : live (one_user_store (bill_session [])) "u1" 1
                 (bill_session []))
    by (split; [reflexivity | by vm_compute]).
  split; [exact Hl|]. do 2 (split; [reflexivity|]).
  apply (known_fields_stay_known (one_user_store (bill_session [])) "u1"
           "payment" (extraction_intent "PAYMENT") 1 2 (bill_session [])
           Hl eq_refl eq_refl).
  reflexivity.
Defined.

(** ** Keywords *)

Lemma lower_app (a b : string) :
  lower (String.append a b) = String.append (lower a) (lower b).
Proof. induction a as [|c a IH]; simpl; [done | by rewrite IH]. Qed.

Lemma prefix_append (n post : string) :
  String.prefix n (String.append n post) = true.
Proof.
  induction n as [|c n IH]; simpl; [by destruct post|].
  by destruct (ascii_dec c c).
Qed.

Lemma contains_prefix (n hay : string) :
  String.prefix n hay = true → contains n hay = true.
Proof. intros Hp. destruct hay; cbn [contains]; by rewrite Hp. Qed.

Lemma contains_append (n pre post : string) :
  contains n (String.append pre (String.append n post)) = true.
Proof.
  induction pre as [|c pre IH].
  - change (contains n (String.append n post) = true).
    apply contains_prefix, prefix_append.
  - change (contains n (String c (String.append pre (String.append n post)))
            = true).
    cbn [contains]. by rewrite IH, orb_true_r.
Qed.

(** X12: the interrupt is found in any letter case and anywhere in the
    text, inside a word too: if some stretch of the text lowers to
    "cancel" or to "stop", the turn is a cancel: the cancel response is
    returned and the user's session removed, whatever the extraction and
    the state of the dialogue. *)
Theorem keyword_in_any_case_cancels (sessions : store) (user_uid : string)
    (pre kw post : string) (nlu_data : dict) (now now' : float) :
  lower kw = "cancel" ∨ lower kw = "stop" →
  determine_next_step sessions user_uid
    (String.append pre (String.append kw post)) nlu_data now now'
  = (delete user_uid sessions, Returns cancel_response).
Proof.
  intros Hkw.
  assert (Hint : is_interrupt (String.append pre (String.append kw post))
                 = true).
  { unfold is_interrupt. rewrite !lower_app.
    destruct Hkw as [-> | ->]; by rewrite contains_append, ?orb_true_r. }
  unfold determine_next_step.
  pose proof (delete_get_session sessions user_uid now) as Hd.
  destruct (get_session sessions user_uid now) as [s sessions0].
  rewrite Hint. unfold clear_session. simpl in Hd. by rewrite Hd.
Qed.

Lemma keyword_in_any_case_cancels_witness :
  lower "StoP" = "stop"
  ∧ determine_next_step (one_user_store (bill_session [rice_full])) "u1"
      "nonStoPping" (extraction_customer "Ramesh") 1 2
    = (delete "u1" (one_user_store (bill_session [rice_full])),
       Returns cancel_response).
Proof.
  split; [reflexivity|].
  apply (keyword_in_any_case_cancels
           (one_user_store (bill_session [rice_full])) "u1" "non" "StoP"
           "ping" (extraction_customer "Ramesh") 1 2).
  by right.
Defined.

(** ** Partial updates *)

Lemma assign_field_fields (key : string) (val : value) (s s' : session) :
  assign_field key val s = Some s' →
  intent s' = (if String.eqb key "intent" then val else intent s)
  ∧ customerName s'
    = (if String.eqb key "customerName" then val else customerName s)
  ∧ last_question s'
    = (if String.eqb key "last_question" then val else last_question s)
  ∧ last_active s' = last_active s.
Proof.
  unfold assign_field.
  repeat match goal with
         | |- context [if String.eqb key ?k then _ else _] =>
             destruct (String.eqb_spec key k) as [->|?]; simpl
         end;
    try discriminate;
    try (intros [= <-]; by repeat split).
  - destruct val; try discriminate. intros [= <-]. by repeat split.
  - destruct val as [| | | | |l|]; try discriminate.
    destruct (as_dicts l); [|discriminate]. intros [= <-]. by repeat split.
  - destruct val; try discriminate. intros [= <-]. by repeat split.
  - destruct val; try discriminate. intros [= <-]. by repeat split.
Qed.

Lemma updated_insert (data : dict) (key k : string) (val old : value) :
  data !! key = None →
  updated (<[key := val]> data !! k) old
  = if is_none val then updated (data !! k) old
    else if String.eqb key k then val else updated (data !! k) old.
Proof.
  intros Hk. rewrite lookup_insert.
  destruct (decide (key = k)) as [->|Hne]; simpl.
  - rewrite String.eqb_refl, Hk. simpl. by destruct (is_none val).
  - destruct (String.eqb_spec key k); [done|]. by destruct (is_none val).
Qed.

Lemma update_fold_fields (s : session) (data : dict) (s' : session) :
  map_fold update_field (Some s) data = Some s' →
  intent s' = updated (data !! "intent") (intent s)
  ∧ customerName s' = updated (data !! "customerName") (customerName s)
  ∧ last_question s' = updated (data !! "last_question") (last_question s)
  ∧ last_active s' = last_active s.
Proof.
  revert s'.
  apply (map_fold_weak_ind
           (λ acc m, ∀ s', acc = Some s' →
              intent s' = updated (m !! "intent") (intent s)
              ∧ customerName s'
                = updated (m !! "customerName") (customerName s)
              ∧ last_question s'
                = updated (m !! "last_question") (last_question s)
              ∧ last_active s' = last_active s)).
  - intros s' [= <-]. by rewrite !lookup_empty.
  - intros key val m acc Hkey IH s'. unfold update_field.
    rewrite !updated_insert by done.
    destruct (is_none val); [apply IH|].
    destruct acc as [s0|]; [|done]. simpl.
    intros (-> & -> & -> & ->)%assign_field_fields.
    destruct (IH s0 eq_refl) as (-> & -> & -> & ->).
    repeat split;
      match goal with
      | |- context [String.eqb key ?k] => by destruct (String.eqb key k)
      end.
Qed.

Lemma update_fold_nulls (s : session) (data : dict) :
  (∀ k v, data !! k = Some v → v = VNone) →
  map_fold update_field (Some s) data = Some s.
Proof.
  apply (map_fold_weak_ind
           (λ acc m, (∀ k v, m !! k = Some v → v = VNone) → acc = Some s)).
  - done.
  - intros key val m acc Hkey IH Hall.
    rewrite (Hall key val) by apply lookup_insert_eq. unfold update_field.
    simpl. apply IH. intros k v Hk. apply (Hall k).
    rewrite lookup_insert_ne; [done|]. intros ->. by rewrite Hkey in Hk.
Qed.

Lemma assign_field_scalar (key : string) (val : value) (s : session) :
  key ∈ ["intent"; "customerName"; "last_question"; "last_active"] →
  is_Some (assign_field key val s).
Proof.
  intros Hk. repeat (apply elem_of_cons in Hk as [-> | Hk]); [..|by inversion Hk];
    by eexists.
Qed.

Lemma update_fold_defined (s : session) (data : dict) :
  scalar_update data → is_Some (map_fold update_field (Some s) data).
Proof.
  apply (map_fold_weak_ind
           (λ acc m, scalar_update m → is_Some acc)).
  - by eexists.
  - intros key val m acc Hkey IH Hall.
    assert (Hm : scalar_update m).
    { intros k v Hk. apply (Hall k).
      rewrite lookup_insert_ne; [done|]. intros ->. by rewrite Hkey in Hk. }
    destruct (IH Hm) as [s0 ->]. unfold update_field.
    destruct (Hall key val (lookup_insert_eq _ _ _)) as [-> | Hk];
      [by eexists|].
    destruct (is_none val); [by eexists|]. simpl.
    by apply assign_field_scalar.
Qed.

(** X13: [update_session] on an existing session.  For the intent, the
    customer name and the last question, a key that is absent from the
    update or null keeps what the session had; every other value
    replaces it, also a falsy one such as the empty string, which the
    merge would ignore.  [last_active] becomes the time of the update,
    and only the user's entry changes.  (Stated where the update keeps
    the session a record of the model.) *)
Theorem update_session_overwrites (sessions sessions' : store)
    (user_uid : string) (data : dict) (now : float) (s : session) :
  sessions !! user_uid = Some s →
  update_session sessions user_uid data now = Some sessions' →
  ∃ s' : session,
    sessions' = <[user_uid := s']> sessions
    ∧ intent s' = updated (data !! "intent") (intent s)
    ∧ customerName s' = updated (data !! "customerName") (customerName s)
    ∧ last_question s' = updated (data !! "last_question") (last_question s)
    ∧ last_active s' = now.
Proof.
  intros Hs. unfold update_session. rewrite Hs.
  destruct (map_fold update_field (Some s) data) as [s1|] eqn:Hf; [|done].
  simpl. intros [= <-].
  destruct (update_fold_fields s data s1 Hf) as (Hi & Hc & Hq & _).
  exists (set_last_active now s1). by repeat split.
Qed.

Lemma update_session_overwrites_witness :
  ∃ s' : session,
    update_session (one_user_store (bill_session [rice_full])) "u1"
      (mk_dict [("intent", VNone); ("customerName", VStr "")]) 5
    = Some (<["u1" := s']> (one_user_store (bill_session [rice_full])))
    ∧ intent s' = VStr "create_bill"
    ∧ customerName s' = VStr ""
    ∧ last_active s' = 5%float.
Proof.
  destruct (update_session_overwrites
              (one_user_store (bill_session [rice_full]))
              (<["u1" := set_last_active 5
                           (set_customerName (VStr "")
                              (bill_session [rice_full]))]>
                 (one_user_store (bill_session [rice_full])))
              "u1" (mk_dict [("intent", VNone); ("customerName", VStr "")])
              5 (bill_session [rice_full]) eq_refl eq_refl)
    as (s' & Hst & Hi & Hc & _ & Hl).
  exists s'. split; [by rewrite <- Hst|]. by repeat split.
Defined.

(** X14: an update all of whose values are null, whatever its keys, and
    so the empty update, changes nothing in the session but
    [last_active]. *)
Theorem update_session_nulls_keep (sessions : store) (user_uid : string)
    (data : dict) (now : float) (s : session) :
  sessions !! user_uid = Some s →
  (∀ k v, data !! k = Some v → v = VNone) →
  update_session sessions user_uid data now
  = Some (<[user_uid := set_last_active now s]> sessions).
Proof.
  intros Hs Hall. unfold update_session.
  by rewrite Hs, update_fold_nulls.
Qed.

Lemma update_session_nulls_keep_witness :
  one_user_store (bill_session [rice_full]) !! "u1"
  = Some (bill_session [rice_full])
  ∧ update_session (one_user_store (bill_session [rice_full])) "u1"
      (mk_dict [("customerName", VNone); ("color", VNone)]) 5
    = Some (<["u1" := set_last_active 5 (bill_session [rice_full])]>
              (one_user_store (bill_session [rice_full]))).
Proof.
  split; [reflexivity|].
  apply (update_session_nulls_keep
           (one_user_store (bill_session [rice_full])) "u1"
           (mk_dict [("customerName", VNone); ("color", VNone)]) 5
           (bill_session [rice_full]) eq_refl).
  intros k v. unfold mk_dict. simpl.
  rewrite !lookup_insert. repeat case_decide; by intros [= <-].
Defined.

(** X15: [update_session] never creates a session: for a user without
    an entry it returns the store as it is, whatever the update holds.
    For a user with an entry, and an update that gives values other than
    null only to the intent, the customer name, the last question or
    [last_active], the user still has an entry afterwards and the
    entries of all other users are as before. *)
Theorem update_session_only_existing (sessions : store)
    (user_uid : string) (data : dict) (now : float) :
  (sessions !! user_uid = None →
   update_session sessions user_uid data now = Some sessions)
  ∧ (scalar_update data →
     ∃ sessions' : store,
       update_session sessions user_uid data now = Some sessions'
       ∧ (is_Some (sessions !! user_uid) → is_Some (sessions' !! user_uid))
       ∧ ∀ other, user_uid ≠ other → sessions' !! other = sessions !! other).
Proof.
  unfold update_session. split.
  - by intros ->.
  - intros Hdata. destruct (sessions !! user_uid) as [s|] eqn:Hs.
    + destruct (update_fold_defined s data Hdata) as [s1 ->]. simpl.
      eexists. split; [done|]. split.
      * intros _. rewrite lookup_insert_eq. by eexists.
      * intros other Hne. by rewrite lookup_insert_ne.
    + exists sessions. split; [done|]. split; [by rewrite Hs | done].
Qed.

Lemma update_session_only_existing_witness :
  one_user_store (bill_session [rice_full]) !! "u2" = None
  ∧ update_session (one_user_store (bill_session [rice_full])) "u2"
      (mk_dict [("items", VStr "Dal"); ("color", VStr "red")]) 5
    = Some (one_user_store (bill_session [rice_full]))
  ∧ scalar_update (extraction_customer "Suresh")
  ∧ ∃ sessions' : store,
      update_session
        (<["u2" := bill_session []]>
           (one_user_store (bill_session [rice_full])))
        "u1" (extraction_customer "Suresh") 5
      = Some sessions'
      ∧ is_Some (sessions' !! "u1")
      ∧ sessions' !! "u2" = Some (bill_session []).
Proof.
  assert (Hsc : scalar_update (extraction_customer "Suresh")).
  { intros k v. unfold extraction_customer, mk_dict. simpl.
    intros [<- _]%lookup_singleton_Some. right.
    apply elem_of_cons. right. by left. }
  split; [reflexivity|]. split.
  - apply (update_session_only_existing
             (one_user_store (bill_session [rice_full])) "u2"
             (mk_dict [("items", VStr "Dal"); ("color", VStr "red")]) 5).
    reflexivity.
  - split; [exact Hsc|].
    destruct (update_session_only_existing
                (<["u2" := bill_session []]>
                   (one_user_store (bill_session [rice_full])))
                "u1" (extraction_customer "Suresh") 5)
      as [_ Hex].
    destruct (Hex Hsc) as (sessions' & Hup & Hu & Ho).
    exists sessions'. split; [exact Hup|]. split.
    + apply Hu. by eexists.
    + rewrite Ho by discriminate. reflexivity.
Defined.

(** X16: [update_session] does not look at the timeout.  An update of a
    session, however long it has been idle, makes it live again: for 60
    seconds from the update [get_session] returns the updated session
    instead of replacing it by a new one.  (For an update that gives
    values other than null only to the intent, the customer name, the
    last question or [last_active].) *)
Theorem update_session_revives (sessions : store)
    (user_uid : string) (data : dict) (now later : float) (s : session) :
  sessions !! user_uid = Some s →
  scalar_update data →
  (later - now <=? 60)%float = true →
  ∃ (s' : session) (sessions' : store),
    update_session sessions user_uid data now = Some sessions'
    ∧ get_session sessions' user_uid later = (s', sessions')
    ∧ last_active s' = now.
Proof.
  intros Hs Hdata Hlater. unfold update_session. rewrite Hs.
  destruct (update_fold_defined s data Hdata) as [s1 ->]. simpl.
  exists (set_last_active now s1). eexists. split; [done|].
  split; [|done].
  apply get_session_live; [apply lookup_insert_eq|].
  by apply timed_out_false.
Qed.

Lemma update_session_revives_witness :
  one_user_store (bill_session [rice_full]) !! "u1"
  = Some (bill_session [rice_full])
  ∧ timed_out 500 (bill_session [rice_full]) = true
  ∧ scalar_update (extraction_customer "Suresh")
  ∧ (510 - 500 <=? 60)%float = true
  ∧ ∃ (s' : session) (sessions' : store),
      update_session (one_user_store (bill_session [rice_full])) "u1"
        (extraction_customer "Suresh") 500 = Some sessions'
      ∧ get_session sessions' "u1" 510 = (s', sessions')
      ∧ last_active s' = 500%float.
Proof.
  assert (Hsc : scalar_update (extraction_customer "Suresh")).
  { intros k v. unfold extraction_customer, mk_dict. simpl.
    intros [<- _]%lookup_singleton_Some. right.
    apply elem_of_cons. right. by left. }
  assert (Hl : (510 - 500 <=? 60)%float = true) by reflexivity.
  split; [reflexivity|]. split; [reflexivity|].
  split; [exact Hsc|]. split; [exact Hl|].
  exact (update_session_revives
           (one_user_store (bill_session [rice_full])) "u1"
           (extraction_customer "Suresh") 500 510 (bill_session [rice_full])
           eq_refl Hsc Hl).
Defined.

(** ** Asking for a session twice *)

(** X17: what [get_session] returns is live at that moment: asking again
    at the same time returns the same session and leaves the store as the
    first call left it, also when the first call had just created the
    session. *)
Theorem get_session_again (sessions : store) (user_uid : string) (now : float) :
  get_session (snd (get_session sessions user_uid now)) user_uid now
  = get_session sessions user_uid now.
Proof.
  assert (Hnew : ∀ st : store,
    get_session (<[user_uid := new_session now]> st) user_uid now
    = (new_session now, <[user_uid := new_session now]> st)).
  { intros st. apply get_session_live; [apply lookup_insert_eq|].
    apply sub_diag_not_above. }
  unfold get_session at 2 3, clear_session.
  destruct (sessions !! user_uid) as [s|] eqn:Hs; simpl.
  - destruct (timed_out now s) eqn:Ht; simpl.
    + by rewrite Hnew, !insert_delete_eq.
    + by rewrite (get_session_live _ _ _ s).
  - by rewrite Hnew.
Qed.

(** ** Adding items *)

Lemma merge_items_named (its ds : list dict) :
  Forall (λ d, truthy (py_get d "itemName") = true) ds →
  merge_items its (VDict <$> ds) = (its ++ ds, Returns tt).
Proof.
  intros Hds. revert its.
  induction Hds as [|d ds Hd _ IH]; intros its.
  - by rewrite app_nil_r.
  - rewrite fmap_cons. cbn [merge_items].
    rewrite merge_item_new by (by left).
    by rewrite IH, <- app_assoc.
Qed.

(** X18: named items are appended, all of them and in the order of the
    extraction: when the extraction's items are dicts with a truthy
    [itemName], the merge returns and the session's items are the old
    ones, unchanged, followed by the new ones. *)
Theorem merge_appends_named_items (s : session) (nlu_data : dict)
    (ds : list dict) :
  nlu_items nlu_data = VList (VDict <$> ds) →
  Forall (λ d, truthy (py_get d "itemName") = true) ds →
  _merge_nlu_to_session s nlu_data
  = (set_items (items s ++ ds) (merge_basic_fields s nlu_data), Returns tt).
Proof.
  intros Hl Hds. unfold _merge_nlu_to_session. rewrite Hl.
  destruct ds as [|d ds].
  - cbn [fmap list_fmap truthy]. rewrite app_nil_r.
    rewrite <- (items_merge_basic_fields s nlu_data).
    by destruct (merge_basic_fields s nlu_data).
  - rewrite fmap_cons. cbn [truthy merge_new_items]. rewrite <- fmap_cons.
    by rewrite merge_items_named, items_merge_basic_fields.
Qed.

Lemma merge_appends_named_items_witness :
  nlu_items (extraction_items [VDict rice_full; VDict dal_full])
  = VList (VDict <$> [rice_full; dal_full])
  ∧ _merge_nlu_to_session (bill_session [rice_open])
      (extraction_items [VDict rice_full; VDict dal_full])
    = (bill_session [rice_open; rice_full; dal_full], Returns tt).
Proof.
  split; [reflexivity|].
  apply (merge_appends_named_items (bill_session [rice_open])
           (extraction_items [VDict rice_full; VDict dal_full])
           [rice_full; dal_full] eq_refl).
  repeat constructor.
Defined.



(** X20: the customer name can be corrected and cannot be erased: the
    merge replaces it by the extraction's name whenever that one is
    truthy, and keeps it when the extraction has none, null or an empty
    string. *)
Theorem merge_customer_name (s : session) (nlu_data : dict) :
  customerName (fst (_merge_nlu_to_session s nlu_data))
  = if truthy (py_get nlu_data "customerName")
    then py_get nlu_data "customerName" else customerName s.
Proof.
  destruct (merge_frame s nlu_data) as (_ & _ & _ & _ & _ & _ & ->).
  apply customerName_merge_basic_fields.
Qed.

(** ** The order of the questions *)

(** X21: nothing is asked before the intent, and only the intent before
    the customer.  When neither the session handed out by [get_session]
    nor the extraction has an intent, the turn asks for the intent and
    notes that question, whatever customer name and items the extraction
    brought and were merged.  When there is an intent but no customer
    name on either side, the turn asks for the customer name and notes
    that question, whatever the items and whatever finish keyword the
    text has.  (For texts without interrupt and extractions whose merge
    returns.) *)
Theorem questions_in_order (sessions : store) (user_uid txt : string)
    (nlu_data : dict) (now now' : float) (s1 : session) :
  is_interrupt txt = false →
  _merge_nlu_to_session
    (set_last_active now' (fst (get_session sessions user_uid now))) nlu_data
  = (s1, Returns tt) →
  (truthy (intent s1) = false →
   determine_next_step sessions user_uid txt nlu_data now now'
   = (<[user_uid := set_last_question (VStr "intent") s1]>
        (snd (get_session sessions user_uid now)),
      Returns (listen intent_prompt)))
  ∧ (truthy (intent s1) = true →
     truthy (customerName s1) = false →
     determine_next_step sessions user_uid txt nlu_data now now'
     = (<[user_uid := set_last_question (VStr "customerName") s1]>
          (snd (get_session sessions user_uid now)),
        Returns (listen customer_prompt))).
Proof.
  intros Hint Hm. rewrite determine_next_step_steps by done.
  cbv zeta. rewrite Hm. cbn [fst snd]. split.
  - intros Hi. unfold plan. rewrite Hi. cbn [negb].
    destruct (truthy (py_get nlu_data "intent")) eqn:Hn; [|done].
    pose proof (merged_intent_truthy
                  (set_last_active now'
                     (fst (get_session sessions user_uid now)))
                  nlu_data Hn) as Ht.
    rewrite Hm in Ht. simpl in Ht. congruence.
  - intros Hi Hc. unfold plan, customer_phase. by rewrite Hi, Hc.
Qed.

Lemma questions_in_order_witness :
  is_interrupt "rice 5 kg done" = false
  ∧ determine_next_step ∅ "u1" "rice 5 kg done"
      (extraction_items [VDict rice_full]) 1 2
    = (<["u1" := set_last_question (VStr "intent")
                   (set_items [rice_full] (set_last_active 2 (new_session 1)))]>
         (<["u1" := new_session 1]> ∅),
       Returns (listen intent_prompt)).
Proof.
  split; [reflexivity|].
  assert (Hm : _merge_nlu_to_session
                 (set_last_active 2 (fst (get_session ∅ "u1" 1)))
                 (extraction_items [VDict rice_full])
               = (set_items [rice_full] (set_last_active 2 (new_session 1)),
                  Returns tt))
    by reflexivity.
  apply (questions_in_order ∅ "u1" "rice 5 kg done"
           (extraction_items [VDict rice_full]) 1 2
           (set_items [rice_full] (set_last_active 2 (new_session 1)))
           eq_refl Hm).
  reflexivity.
Defined.
